(** * geni: chroot session lifecycle, mount stack and file semaphore

    A shallow embedding of [geni/util.py], [geni/mount.py] and
    [geni/chroot.py].  Python integers are [Z]; text is [string], read as a
    sequence of code points below 256; the file system is a finite map from
    paths to contents; external commands run through [sudo]/plumbum act on
    an explicit world and may fail. *)

From Stdlib Require Import ZArith Lia Bool Ascii String.
From Stdlib Require Import Decimal DecimalString DecimalPos DecimalZ.
From stdpp Require Import base option list strings gmap.

Open Scope string_scope.
Open Scope Z_scope.

(** ** Exceptions and outcomes *)

(** The external commands the three modules run, by argument vector. *)
Inductive command : Type :=
  | SudoMount (opts : list string) (device mount_point : string)
  | SudoMakeRslave (mount_point : string)
  | SudoUmount (recursive : bool) (mount_point : string)
  | SudoCp (source_path target_path : string)
  | SudoRm (target_path : string)
  | Diff (source_path target_path : string)
  | Mountpoint (mp_path : string).

Inductive exn : Type :=
  | ValueError
  | AssertionError
  | GeniException (msg : string)
  | ProcessExecutionError (c : command).

(** What a call does: return, raise, or still be in its polling loop when
    the fuel given to the loop is used up. *)
Inductive outcome (A : Type) : Type :=
  | Ok (a : A)
  | Raise (e : exn)
  | Polling.
Arguments Ok {A} a.
Arguments Raise {A} e.
Arguments Polling {A}.

(** ** Python's [str.strip], [int] and [str] on counters *)

Module Py.

(** [str.isspace] on code points below 256. *)
Definition isspace (c : ascii) : bool :=
  let n := nat_of_ascii c in
  ((9 <=? n) && (n <=? 13) || (28 <=? n) && (n <=? 32)
   || (n =? 133) || (n =? 160))%nat.

Fixpoint lstrip (s : string) : string :=
  match s with
  | String c s' => if isspace c then lstrip s' else s
  | EmptyString => EmptyString
  end.

Fixpoint rstrip (s : string) : string :=
  match s with
  | String c s' =>
      match rstrip s' with
      | EmptyString => if isspace c then EmptyString else String c EmptyString
      | r => String c r
      end
  | EmptyString => EmptyString
  end.

Definition strip (s : string) : string := rstrip (lstrip s).

(** The value of a decimal digit, by its code point. *)
Definition digit (c : ascii) : option Z :=
  let n := nat_of_ascii c in
  if ((48 <=? n) && (n <=? 57))%nat then Some (Z.of_nat n - 48) else None.

(** Decimal digits, a single underscore allowed between two digits;
    [seen] tells whether the previous character was a digit. *)
Fixpoint int_digits (acc : Z) (seen : bool) (s : string) : option Z :=
  match s with
  | EmptyString => if seen then Some acc else None
  | String c s' =>
      match digit c with
      | Some d => int_digits (10 * acc + d) true s'
      | None =>
          if Ascii.eqb c "_" && seen then int_digits acc false s' else None
      end
  end.

(** [int(s)] for a string [s] without surrounding white space. *)
Definition int_of_str (s : string) : option Z :=
  match s with
  | String "+" s' => int_digits 0 false s'
  | String "-" s' => Z.opp <$> int_digits 0 false s'
  | _ => int_digits 0 false s
  end.

(** [int(text.strip() or 0)]. *)
Definition int_strip_or_0 (text : string) : outcome Z :=
  match strip text with
  | EmptyString => Ok 0
  | s => match int_of_str s with
         | Some z => Ok z
         | None => Raise ValueError
         end
  end.

(** [str(n)]. *)
Definition str (n : Z) : string := NilZero.string_of_int (Z.to_int n).

End Py.

(** ** [os.path] helpers *)

Module Path.

(** [s.lstrip("/")]. *)
Fixpoint lstrip_slash (s : string) : string :=
  match s with
  | String "/" s' => lstrip_slash s'
  | _ => s
  end.

Fixpoint has_slash (s : string) : bool :=
  match s with
  | String c s' => Ascii.eqb c "/" || has_slash s'
  | EmptyString => false
  end.

Fixpoint ends_with_slash (s : string) : bool :=
  match s with
  | String c EmptyString => Ascii.eqb c "/"
  | String _ s' => ends_with_slash s'
  | EmptyString => false
  end.

(** [os.path.join(a, b)] of [posixpath]. *)
Definition join (a b : string) : string :=
  match b with
  | String "/" _ => b
  | _ => if String.eqb a "" || ends_with_slash a then a ++ b
         else a ++ "/" ++ b
  end.

(** [os.path.basename(p)]: what follows the last slash. *)
Fixpoint basename (p : string) : string :=
  match p with
  | String c r =>
      if has_slash r then basename r
      else if Ascii.eqb c "/" then r else p
  | EmptyString => EmptyString
  end.

End Path.

(** ** The world outside the process *)

(** Regular files by path, the paths that are symbolic links, the kernel's
    mount table (mount points, most recent first), the outcomes the next
    external commands will have for reasons outside the model ([false] is a
    failure; an exhausted script means no such failure), and the commands
    run so far, oldest first. *)
Record world : Type := World {
  files : gmap string string;
  symlinks : gset string;
  mtab : list string;
  script : list bool;
  log : list command
}.

Definition set_files (fs : gmap string string) (w : world) : world :=
  World fs (symlinks w) (mtab w) (script w) (log w).
Definition set_mtab (mt : list string) (w : world) : world :=
  World (files w) (symlinks w) mt (script w) (log w).
Definition set_script (sc : list bool) (w : world) : world :=
  World (files w) (symlinks w) (mtab w) sc (log w).
Definition set_log (lg : list command) (w : world) : world :=
  World (files w) (symlinks w) (mtab w) (script w) lg.

Definition exists_file (path : string) (w : world) : bool :=
  bool_decide (is_Some (files w !! path)).
Definition mounted (mp : string) (w : world) : bool :=
  bool_decide (mp ∈ mtab w).
Definition islink (path : string) (w : world) : bool :=
  bool_decide (path ∈ symlinks w).

(** Is [p] strictly below the directory [mp]? *)
Definition below (mp p : string) : bool := String.prefix (mp ++ "/") p.

(** [umount mp] removes the most recent mount on [mp]; [umount -R mp] also
    removes the mounts made below [mp] after it. *)
Fixpoint umount_one (recursive : bool) (mp : string) (mt : list string)
  : list string :=
  match mt with
  | m :: mt' =>
      if String.eqb m mp then mt'
      else if recursive && below mp m then umount_one recursive mp mt'
      else m :: umount_one recursive mp mt'
  | [] => []
  end.

(** Can the command succeed in this world?  These are the conditions the
    model knows; every other cause of failure comes from the script. *)
Definition feasible (c : command) (w : world) : bool :=
  match c with
  | SudoMount _ _ _ => true
  | SudoMakeRslave mp => mounted mp w
  | SudoUmount _ mp => mounted mp w
  | SudoCp src dst => exists_file src w && negb (String.eqb src dst)
  | SudoRm path => exists_file path w
  | Diff a b =>
      match files w !! a, files w !! b with
      | Some x, Some y => String.eqb x y
      | _, _ => false
      end
  | Mountpoint mp => mounted mp w
  end.

(** What the command changes when it succeeds. *)
Definition effect (c : command) (w : world) : world :=
  match c with
  | SudoMount _ _ mp => set_mtab (mp :: mtab w) w
  | SudoMakeRslave _ => w
  | SudoUmount recursive mp => set_mtab (umount_one recursive mp (mtab w)) w
  | SudoCp src dst =>
      match files w !! src with
      | Some text => set_files (<[dst := text]> (files w)) w
      | None => w
      end
  | SudoRm path => set_files (delete path (files w)) w
  | Diff _ _ => w
  | Mountpoint _ => w
  end.

(** ** Calls that change an object and the world, and may raise *)

Definition M (S A : Type) : Type := S → world → outcome A * S * world.

Definition raise {S A} (e : exn) : M S A := λ s w, (Raise e, s, w).

#[export] Instance M_ret {S} : MRet (M S) := λ A a s w, (Ok a, s, w).
#[export] Instance M_bind {S} : MBind (M S) :=
  λ A B f m s w,
    match m s w with
    | (Ok a, s', w') => f a s' w'
    | (Raise e, s', w') => (Raise e, s', w')
    | (Polling, s', w') => (Polling, s', w')
    end.

Definition get_self {S} : M S S := λ s w, (Ok s, s, w).
Definition modify {S} (f : S → S) : M S unit := λ s w, (Ok tt, f s, w).
Definition get_world {S} : M S world := λ s w, (Ok w, s, w).

(** Runs a method of a member object. *)
Definition zoom {S T A} (proj : S → T) (upd : T → S → S) (m : M T A)
  : M S A :=
  λ s w, let '(r, t, w') := m (proj s) w in (r, upd t s, w').

(** plumbum: run the command, raise [ProcessExecutionError] when it exits
    with a non-zero status. *)
Definition run {S} (c : command) : M S unit :=
  λ s w,
    let ok := match script w with b :: _ => b | [] => true end in
    let w := set_log (log w ++ [c])%list (set_script (tail (script w)) w) in
    if ok && feasible c w then (Ok tt, s, effect c w)
    else (Raise (ProcessExecutionError c), s, w).

(** [try: body / except: handler; raise]. *)
Definition try_except_reraise {S A} (body : M S A) (handler : M S unit)
  : M S A :=
  λ s w,
    match body s w with
    | (Raise e, s', w') =>
        match handler s' w' with
        | (Ok _, s'', w'') => (Raise e, s'', w'')
        | (Raise e', s'', w'') => (Raise e', s'', w'')
        | (Polling, s'', w'') => (Polling, s'', w'')
        end
    | r => r
    end.

(** [ExceptionEater]: the list of the exceptions eaten so far. *)
Module ExceptionEater.

Definition eat {S A} (function : M S A) (exceptions : list exn)
  : M S (list exn) :=
  λ s w,
    match function s w with
    | (Ok _, s', w') => (Ok exceptions, s', w')
    | (Raise e, s', w') => (Ok (exceptions ++ [e])%list, s', w')
    | (Polling, s', w') => (Polling, s', w')
    end.

Definition raise_first_if_any {S} (exceptions : list exn) : M S unit :=
  match exceptions with
  | e :: _ => raise e
  | [] => mret tt
  end.

End ExceptionEater.

(** ** [util.FileSemaphore] *)

Module FileSemaphore.

Record t : Type := Build { sem_file_path : string; lock_file_path : string }.

Definition __init__ (path : string) : t :=
  {| sem_file_path := path; lock_file_path := path ++ ".lock" |}.

(** [portalocker.Lock(path)] opens in append mode: a missing file is
    created empty, an existing one is kept. *)
Definition open_append (path : string) (fs : gmap string string)
  : gmap string string :=
  match fs !! path with
  | Some _ => fs
  | None => <[path := ""]> fs
  end.

(** The counter file as the two methods read it. *)
Definition read_counter (self : t) (fs : gmap string string) : outcome Z :=
  match fs !! sem_file_path self with
  | Some text => Py.int_strip_or_0 text
  | None => Ok 0
  end.

Definition _read (self : t) (fs : gmap string string)
  : outcome Z * gmap string string :=
  let fs := open_append (lock_file_path self) fs in
  let r := read_counter self fs in
  (* finally *)
  (r, delete (lock_file_path self) fs).

Definition _update (self : t) (func : Z → Z) (fs : gmap string string)
  : outcome Z * gmap string string :=
  let counter := -1 in
  let fs := open_append (lock_file_path self) fs in
  let '(r, counter, fs) :=
    match read_counter self fs with
    | Ok c =>
        let counter := func c in
        (Ok counter, counter, <[sem_file_path self := Py.str counter]> fs)
    | bad => (bad, counter, fs)
    end in
  (* finally *)
  let fs := delete (lock_file_path self) fs in
  (r, if counter =? 0 then delete (sem_file_path self) fs else fs).

Definition down (self : t) := _update self (λ counter, counter - 1).
Definition get (self : t) := _read self.
Definition up (self : t) := _update self (λ counter, counter + 1).

(** A semaphore method as a call on the world's files. *)
Definition call {S A}
    (method : gmap string string → outcome A * gmap string string)
  : M S A :=
  λ s w, let '(r, fs) := method (files w) in (r, s, set_files fs w).

End FileSemaphore.

(** ** [mount.Mount] and [mount.MountsManager] *)

Module Mount.

Record t : Type := Build {
  device : string;
  mount_point : string;
  opts : list string;
  make_rslave : bool
}.

Definition mount {S} (self : t) : M S unit :=
  run (SudoMount (opts self) (device self) (mount_point self));;
  if make_rslave self then run (SudoMakeRslave (mount_point self))
  else mret tt.

Definition umount {S} (self : t) : M S unit :=
  run (SudoUmount (make_rslave self) (mount_point self)).

Definition __enter__ {S} (self : t) : M S string :=
  mount self;; mret (mount_point self).

Definition __exit__ {S} (self : t) : M S bool :=
  umount self;; mret false.

End Mount.

Module MountsManager.

Record t : Type := Build { base_dir : string; mounts : list Mount.t }.

Definition __init__ (base_dir : string) : t :=
  {| base_dir := base_dir; mounts := [] |}.

Definition set_mounts (ms : list Mount.t) (self : t) : t :=
  {| base_dir := base_dir self; mounts := ms |}.

Definition add (mount_ : Mount.t) : M t unit :=
  modify (λ self, set_mounts (mounts self ++ [mount_])%list self);;
  Mount.mount mount_.

Definition mount (device directory : string) (opts : list string)
    (make_rslave : bool) : M t unit :=
  self ← get_self;
  let mount_point :=
    Path.join (base_dir self) (Path.lstrip_slash directory) in
  add (Mount.Build device mount_point opts make_rslave).

(** [list.pop()]: the last element and what is before it. *)
Definition pop {A} (l : list A) : option (list A * A) :=
  match reverse l with
  | x :: r => Some (reverse r, x)
  | [] => None
  end.

(** [while self.mounts: self.mounts.pop().umount()], at most [n] rounds. *)
Fixpoint umount_loop (n : nat) : M t unit :=
  match n with
  | O => mret tt
  | S n' =>
      self ← get_self;
      match pop (mounts self) with
      | Some (rest, m) =>
          modify (set_mounts rest);;
          Mount.umount m;;
          umount_loop n'
      | None => mret tt
      end
  end.

(** Every round pops one record, so the length of the list is enough. *)
Definition umount_all : M t unit :=
  self ← get_self; umount_loop (length (mounts self)).

Definition __exit__ : M t bool := umount_all;; mret false.

End MountsManager.

(** ** [util.FileInstaller] and [util.FileTempInst] *)

Module FileInstaller.

Record t : Type := Build {
  source_base_dir : string;
  target_base_dir : string;
  files : list string
}.

Definition __init__ (source_base_dir target_base_dir : string) : t :=
  Build source_base_dir target_base_dir [].

Definition set_files (fl : list string) (self : t) : t :=
  Build (source_base_dir self) (target_base_dir self) fl.

Definition _make_source_path (self : t) (rel_path : string) : string :=
  Path.join (source_base_dir self) (Path.lstrip_slash rel_path).

Definition _make_target_path (self : t) (rel_path : string) : string :=
  Path.join (target_base_dir self) (Path.lstrip_slash rel_path).

Definition _remove (rel_path : string) : M t unit :=
  self ← get_self; run (SudoRm (_make_target_path self rel_path)).

(** [list.remove(x)]: the list without the first [x], if there is one. *)
Fixpoint list_remove (x : string) (l : list string) : option (list string) :=
  match l with
  | y :: l' =>
      if String.eqb y x then Some l' else (y ::.) <$> list_remove x l'
  | [] => None
  end.

Definition uninstall (rel_path : string) : M t unit :=
  _remove rel_path;;
  self ← get_self;
  match list_remove rel_path (files self) with
  | Some rest => modify (set_files rest)
  | None => raise ValueError
  end.

Definition ensure_is_copied (rel_path : string) : M t unit :=
  self ← get_self;
  let source_path := _make_source_path self rel_path in
  let target_path := _make_target_path self rel_path in
  run (Diff source_path target_path).

Definition copy (rel_path : string) : M t string :=
  self ← get_self;
  let source_path := _make_source_path self rel_path in
  let target_path := _make_target_path self rel_path in
  run (SudoCp source_path target_path);;
  modify (λ self, set_files (files self ++ [rel_path])%list self);;
  mret target_path.

(** [while self.files: rel_path = self.files.pop(); self._remove(rel_path)],
    at most [n] rounds. *)
Fixpoint uninstall_loop (n : nat) : M t unit :=
  match n with
  | O => mret tt
  | S n' =>
      self ← get_self;
      match MountsManager.pop (files self) with
      | Some (rest, rel_path) =>
          modify (set_files rest);;
          _remove rel_path;;
          uninstall_loop n'
      | None => mret tt
      end
  end.

Definition uninstall_all : M t unit :=
  self ← get_self; uninstall_loop (length (files self)).

End FileInstaller.

Module FileTempInst.

Record t : Type := Build { inst : FileInstaller.t; file_path : string }.

Definition __init__ (chroot_dir file_path : string) : t :=
  Build (FileInstaller.__init__ "/" chroot_dir) file_path.

Definition on_inst {A} (m : M FileInstaller.t A) : M t A :=
  zoom inst (λ i self, Build i (file_path self)) m.

Definition copy : M t unit :=
  self ← get_self; on_inst (FileInstaller.copy (file_path self));; mret tt.

Definition ensure_is_copied : M t unit :=
  self ← get_self; on_inst (FileInstaller.ensure_is_copied (file_path self)).

Definition remove : M t unit := on_inst FileInstaller.uninstall_all.

End FileTempInst.

(** ** [chroot.Chroot] *)

Module ChrootExec.
Record t : Type := Build { chroot_dir : string }.
End ChrootExec.

Module Chroot.

Record t : Type := Build {
  chroot_dir : string;
  mounts_mgr : MountsManager.t;
  semaphore : FileSemaphore.t;
  resolv_conf : FileTempInst.t;
  master : bool
}.

Section Init.
(** [util.hash_path]: the hexadecimal SHA-1 digest of the path. *)
Variable hash_path : string → string.

Definition __init__ (chroot_dir work_dir : string) : t :=
  let chroot_name := Path.basename chroot_dir in
  let chroot_path_hash := hash_path chroot_dir in
  {| chroot_dir := chroot_dir;
     mounts_mgr := MountsManager.__init__ chroot_dir;
     semaphore :=
       FileSemaphore.__init__
         (Path.join work_dir
            ("._geni_chroot_" ++ chroot_name ++ "_" ++ chroot_path_hash
             ++ "_cnt"));
     resolv_conf := FileTempInst.__init__ chroot_dir "/etc/resolv.conf";
     master := false |}.
End Init.

Definition set_master (b : bool) (self : t) : t :=
  Build (chroot_dir self) (mounts_mgr self) (semaphore self)
    (resolv_conf self) b.

Definition on_mounts_mgr {A} (m : M MountsManager.t A) : M t A :=
  zoom mounts_mgr
    (λ mm self, Build (chroot_dir self) mm (semaphore self)
                  (resolv_conf self) (master self)) m.

Definition on_resolv_conf {A} (m : M FileTempInst.t A) : M t A :=
  zoom resolv_conf
    (λ rc self, Build (chroot_dir self) (mounts_mgr self) (semaphore self)
                  rc (master self)) m.

Definition semaphore_up : M t Z :=
  self ← get_self; FileSemaphore.call (FileSemaphore.up (semaphore self)).
Definition semaphore_down : M t Z :=
  self ← get_self; FileSemaphore.call (FileSemaphore.down (semaphore self)).
Definition semaphore_get : M t Z :=
  self ← get_self; FileSemaphore.call (FileSemaphore.get (semaphore self)).

Definition umount_all : M t unit := on_mounts_mgr MountsManager.umount_all.

(** [while self.semaphore.get() > 0: time.sleep(3)], at most [fuel]
    reads of the counter. *)
Fixpoint wait_drained (fuel : nat) : M t unit :=
  match fuel with
  | O => λ s w, (Polling, s, w)
  | S fuel' =>
      v ← semaphore_get;
      if 0 <? v then wait_drained fuel' else mret tt
  end.

Definition clean_up (fuel : nat) : M t unit :=
  semaphore_down;;
  self ← get_self;
  if master self then
    wait_drained fuel;;
    exc_eater ← ExceptionEater.eat umount_all [];
    exc_eater ← ExceptionEater.eat (on_resolv_conf FileTempInst.remove)
                  exc_eater;
    modify (set_master false);;
    ExceptionEater.raise_first_if_any exc_eater
  else mret tt.

Definition ensure_all_mounted : M t unit :=
  run (Mountpoint "/tmp");;
  run (Mountpoint "/proc");;
  run (Mountpoint "/sys");;
  run (Mountpoint "/dev").

Definition mount_all : M t unit :=
  on_mounts_mgr
    (MountsManager.mount "geni_tmpfs" "/tmp" ["--types"; "tmpfs"] false);;
  w ← get_world;
  if islink "/dev/shm" w then
    raise (GeniException "/dev/shm is not a directory")
  else
    on_mounts_mgr
      (MountsManager.mount "/proc" "/proc" ["--types"; "proc"] true);;
    on_mounts_mgr (MountsManager.mount "/sys" "/sys" ["--rbind"] true);;
    on_mounts_mgr (MountsManager.mount "/dev" "/dev" ["--rbind"] true).

Definition prepare : M t unit :=
  v ← semaphore_up;
  (if v =? 1 then
     modify (set_master true);;
     on_resolv_conf FileTempInst.copy;;
     mount_all
   else
     v' ← semaphore_get;
     if 1 <? v' then mret tt else raise AssertionError);;
  on_resolv_conf FileTempInst.ensure_is_copied;;
  ensure_all_mounted.

Definition __enter__ (fuel : nat) : M t ChrootExec.t :=
  try_except_reraise prepare (clean_up fuel);;
  self ← get_self;
  mret (ChrootExec.Build (chroot_dir self)).

Definition __exit__ (fuel : nat) : M t bool :=
  clean_up fuel;; mret false.

End Chroot.

(** ** Several processes on one counter

    Each simulated process owns a [Chroot] object for the same chroot
    directory; all share the counter file.  A process runs [prepare] and
    [clean_up] one semaphore operation at a time, and the other processes
    may run between two of them.  What [prepare] does besides the semaphore
    (resolver copy, mounts, checks) never touches the counter file: only
    whether it succeeds matters here, and the event says so. *)

Module Concurrent.

(** Where a process is in its [Chroot] code. *)
Inductive pc : Type :=
  | Unprepared    (* outside a session, no call running *)
  | Checking      (* prepare: up() was not 1, before the assert's get() *)
  | SettingUp     (* prepare: up() was 1, before copy() and mount_all() *)
  | Validating    (* prepare: before ensure_is_copied/ensure_all_mounted *)
  | Failing       (* __enter__: prepare raised, before clean_up's down() *)
  | Ready         (* __enter__ returned, inside the with block *)
  | Draining.     (* clean_up of a master: polling get() > 0 *)

Record proc : Type := Proc { master : bool; at_ : pc }.

Record state : Type := State {
  fs : gmap string string;
  procs : list proc
}.

Inductive event : Type :=
  | Enter (p : nat)              (* process p calls __enter__ *)
  | Exit (p : nat)               (* process p calls __exit__ *)
  | Step (p : nat) (ok : bool).  (* process p goes on in its call *)

(** A call can start only when no call of the process is running. *)
Definition idle (c : pc) : bool :=
  match c with Unprepared | Ready => true | _ => false end.


Section Sem.
Variable sem : FileSemaphore.t.

(** [prepare] up to the branch on [up()]'s result; an exception goes to
    [__enter__]'s handler. *)
Definition begin_prepare (q : proc) (f : gmap string string)
  : proc * gmap string string :=
  match FileSemaphore.up sem f with
  | (Ok v, f') =>
      if v =? 1 then (Proc true SettingUp, f')
      else (Proc (master q) Checking, f')
  | (_, f') => (Proc (master q) Failing, f')
  end.

(** [clean_up] up to the branch on [self.master]. *)
Definition begin_clean_up (q : proc) (f : gmap string string)
  : proc * gmap string string :=
  match FileSemaphore.down sem f with
  | (Ok _, f') =>
      if master q then (Proc true Draining, f')
      else (Proc false Unprepared, f')
  | (_, f') => (Proc (master q) Unprepared, f')
  end.

Definition continue (ok : bool) (q : proc) (f : gmap string string)
  : proc * gmap string string :=
  match at_ q with
  | Checking =>
      match FileSemaphore.get sem f with
      | (Ok v, f') =>
          if 1 <? v then (Proc (master q) Validating, f')
          else (Proc (master q) Failing, f')
      | (_, f') => (Proc (master q) Failing, f')
      end
  | SettingUp => (Proc (master q) (if ok then Validating else Failing), f)
  | Validating => (Proc (master q) (if ok then Ready else Failing), f)
  | Failing => begin_clean_up q f
  | Draining =>
      match FileSemaphore.get sem f with
      | (Ok v, f') =>
          if 0 <? v then (Proc (master q) Draining, f')
          else (Proc false Unprepared, f')
      | (_, f') => (Proc (master q) Unprepared, f')
      end
  | Unprepared | Ready => (q, f)
  end.

Definition pid (e : event) : nat :=
  match e with Enter p | Exit p | Step p _ => p end.

Definition act (e : event) (q : proc) (f : gmap string string)
  : proc * gmap string string :=
  match e with
  | Enter _ => if idle (at_ q) then begin_prepare q f else (q, f)
  | Exit _ => if idle (at_ q) then begin_clean_up q f else (q, f)
  | Step _ ok => continue ok q f
  end.

Definition step (s : state) (e : event) : state :=
  match procs s !! pid e with
  | Some q =>
      let '(q', f') := act e q (fs s) in
      State f' (<[pid e := q']> (procs s))
  | None => s
  end.

Definition exec (s : state) (es : list event) : state :=
  foldl step s es.

(** The calls follow the [with] statement: a process enters only from
    outside a session and exits only a session it is in. *)
Definition allowed (s : state) (e : event) : bool :=
  match procs s !! pid e, e with
  | Some q, Enter _ => match at_ q with Unprepared => true | _ => false end
  | Some q, Exit _ => match at_ q with Ready => true | _ => false end
  | Some _, Step _ _ => true
  | None, _ => false
  end.

Fixpoint with_protocol (s : state) (es : list event) : bool :=
  match es with
  | e :: es' => allowed s e && with_protocol (step s e) es'
  | [] => true
  end.




End Sem.

End Concurrent.

(** ** Functions of [util] *)

(** [s[n:]]. *)
Fixpoint slice_from (n : nat) (s : string) : string :=
  match n, s with
  | S n', String _ s' => slice_from n' s'
  | _, _ => s
  end.

Definition drop_prefix (prefix string_ : string) : string :=
  if String.prefix prefix string_
  then slice_from (String.length prefix) string_
  else string_.

(** [s.rstrip("/")]. *)
Fixpoint rstrip_slash (s : string) : string :=
  match s with
  | String c s' =>
      match rstrip_slash s' with
      | EmptyString =>
          if Ascii.eqb c "/" then EmptyString else String c EmptyString
      | r => String c r
      end
  | EmptyString => EmptyString
  end.

(** ["/".join((a, b))]. *)
Definition join_url (base_url path : string) : string :=
  rstrip_slash base_url ++ "/" ++ Path.lstrip_slash path.

(** [env] is [local.env], the environment of the process. *)
Definition make_proxies_dict (env : gmap string string)
  : gmap string string :=
  foldl
    (λ proxies var,
       match env !! var with
       | Some value => <[var := value]> proxies
       | None => proxies
       end)
    ∅ ["http_proxy"; "https_proxy"].

(** ** Definitions used to state and prove the properties *)

(** No character of the text is white space. *)
Fixpoint no_space (s : string) : bool :=
  match s with
  | String c s' => negb (Py.isspace c) && no_space s'
  | EmptyString => true
  end.

(** What [_update] leaves: no lock file, and the counter file holding the
    new value, or no counter file when the new value is 0. *)
Definition updated (self : FileSemaphore.t) (counter : Z)
    (fs : gmap string string) : gmap string string :=
  let fs := delete (FileSemaphore.lock_file_path self) fs in
  if counter =? 0 then delete (FileSemaphore.sem_file_path self) fs
  else <[FileSemaphore.sem_file_path self := Py.str counter]> fs.



(** [for m in ms: self.add(m)], as the callers of [MountsManager] do. *)
Fixpoint add_each (ms : list Mount.t) : M MountsManager.t unit :=
  match ms with
  | m :: ms' => MountsManager.add m;; add_each ms'
  | [] => mret tt
  end.

(** The command [Mount.umount] runs. *)
Definition umount_command (m : Mount.t) : command :=
  SudoUmount (Mount.make_rslave m) (Mount.mount_point m).

(** The commands [Mount.mount] runs when none fails. *)
Definition mount_commands (m : Mount.t) : list command :=
  SudoMount (Mount.opts m) (Mount.device m) (Mount.mount_point m)
  :: (if Mount.make_rslave m then [SudoMakeRslave (Mount.mount_point m)]
      else []).

(** The checks of a [prepare] that is not the first: the resolver copy
    against the host's file, then four mount points. *)
Definition peer_checks (self : Chroot.t) : list command :=
  let inst := FileTempInst.inst (Chroot.resolv_conf self) in
  let rel := FileTempInst.file_path (Chroot.resolv_conf self) in
  [Diff (FileInstaller._make_source_path inst rel)
     (FileInstaller._make_target_path inst rel);
   Mountpoint "/tmp"; Mountpoint "/proc"; Mountpoint "/sys";
   Mountpoint "/dev"].



(** The mounts [mount_all] makes under [base], in its order. *)
Definition base_mounts (base : string) : list Mount.t :=
  [Mount.Build "geni_tmpfs" (Path.join base "tmp") ["--types"; "tmpfs"]
     false;
   Mount.Build "/proc" (Path.join base "proc") ["--types"; "proc"] true;
   Mount.Build "/sys" (Path.join base "sys") ["--rbind"] true;
   Mount.Build "/dev" (Path.join base "dev") ["--rbind"] true].

(** * Properties *)

(** ** The embedding on concrete inputs *)

Example int_plain : Py.int_strip_or_0 "42" = Ok 42.
Proof. reflexivity. Qed.

Example int_padded : Py.int_strip_or_0 "  7 " = Ok 7.
Proof. reflexivity. Qed.

Example int_signed : Py.int_strip_or_0 "-1" = Ok (-1)
                     ∧ Py.int_strip_or_0 "+3" = Ok 3.
Proof. split; reflexivity. Qed.

Example int_underscore : Py.int_strip_or_0 "1_000" = Ok 1000
                         ∧ Py.int_strip_or_0 "1__0" = Raise ValueError
                         ∧ Py.int_strip_or_0 "_1" = Raise ValueError.
Proof. repeat split; reflexivity. Qed.

Example int_inner_space : Py.int_strip_or_0 "1 2" = Raise ValueError.
Proof. reflexivity. Qed.

Example str_examples :
  Py.str 0 = "0" ∧ Py.str 12 = "12" ∧ Py.str (-3) = "-3".
Proof. repeat split; reflexivity. Qed.

Example join_examples :
  Path.join "/work/gentoo" (Path.lstrip_slash "/etc/resolv.conf")
  = "/work/gentoo/etc/resolv.conf"
  ∧ Path.join "/" (Path.lstrip_slash "/etc/resolv.conf") = "/etc/resolv.conf"
  ∧ Path.basename "/work/gentoo" = "gentoo".
Proof. repeat split; reflexivity. Qed.

(** One session with no peer, on a host whose [/tmp], [/proc], [/sys] and
    [/dev] are mount points: [__enter__] copies the resolver file and makes
    the four mounts, [__exit__] unmounts them from the last to the first and
    removes the copy; no counter file and no lock file are left. *)
Example session_round_trip :
  let self :=
    Chroot.__init__ (λ _, "2fd4e1c67a2d28fced849ee1bb76e7391b93eb12")
      "/work/gentoo" "/var/tmp/geni" in
  let host := ["/dev"; "/sys"; "/proc"; "/tmp"] in
  let w := World {["/etc/resolv.conf" := "nameserver 10.0.0.1"]} ∅ host [] []
  in
  ∃ self1 w1 self2 w2,
    Chroot.__enter__ 1 self w
    = (Ok (ChrootExec.Build "/work/gentoo"), self1, w1)
    ∧ Chroot.master self1 = true
    ∧ mtab w1 = (["/work/gentoo/dev"; "/work/gentoo/sys";
                  "/work/gentoo/proc"; "/work/gentoo/tmp"] ++ host)%list
    ∧ Chroot.__exit__ 1 self1 w1 = (Ok false, self2, w2)
    ∧ drop 13 (log w2)
      = [SudoUmount true "/work/gentoo/dev";
         SudoUmount true "/work/gentoo/sys";
         SudoUmount true "/work/gentoo/proc";
         SudoUmount false "/work/gentoo/tmp";
         SudoRm "/work/gentoo/etc/resolv.conf"]
    ∧ mtab w2 = host
    ∧ files w2 = {["/etc/resolv.conf" := "nameserver 10.0.0.1"]}
    ∧ self2 = self.
Proof.
  eexists _, _, _, _. split; [vm_compute; reflexivity|].
  split; [reflexivity|]. split; [reflexivity|].
  split; [vm_compute; reflexivity|]. by vm_compute.
Qed.

(** A master that exits while a peer is still inside keeps polling: the
    counter it reads stays above 0 as long as nobody else runs. *)
Example master_waits_for_peer :
  let self :=
    Chroot.set_master true
      (Chroot.__init__ (λ _, "2fd4e1c67a2d28fced849ee1bb76e7391b93eb12")
         "/work/gentoo" "/var/tmp/geni") in
  let cnt := FileSemaphore.sem_file_path (Chroot.semaphore self) in
  let w := World {[cnt := "2"]} ∅ [] [] [] in
  (Chroot.clean_up 5 self w).1.1 = Polling
  ∧ files (Chroot.clean_up 5 self w).2 !! cnt = Some "1".
Proof. split; vm_compute; reflexivity. Qed.

(** ** [int(str(n))] is [n] *)

(** Evaluates [Py.digit] on the literal character of the goal. *)
Ltac eval_digit :=
  match goal with
  | |- context [Py.digit ?c] =>
      let v := eval vm_compute in (Py.digit c) in
      change (Py.digit c) with v; cbv iota
  end.

Section IntStr.

Local Abbreviation digits := NilEmpty.string_of_uint.

Lemma lstrip_no_space s : no_space s = true → Py.lstrip s = s.
Proof.
  destruct s as [|c s]; [done|]. simpl.
  intros [Hc _]%andb_prop. by destruct (Py.isspace c).
Qed.

Lemma rstrip_no_space s : no_space s = true → Py.rstrip s = s.
Proof.
  induction s as [|c s IH]; [done|]. simpl.
  intros [Hc Hs]%andb_prop. rewrite (IH Hs).
  destruct s; [by destruct (Py.isspace c)|done].
Qed.

Lemma strip_no_space s : no_space s = true → Py.strip s = s.
Proof.
  intros H. unfold Py.strip. rewrite (lstrip_no_space _ H).
  by apply rstrip_no_space.
Qed.

Lemma digits_no_space d : no_space (digits d) = true.
Proof. induction d; simpl; auto. Qed.

Lemma int_digits_acc d p :
  Py.int_digits (Z.pos p) true (digits d)
  = Some (Z.pos (Pos.of_uint_acc d p)).
Proof.
  revert p. induction d; intros p; [done|..];
    cbn [NilEmpty.string_of_uint Py.int_digits Pos.of_uint_acc];
    eval_digit; rewrite <- IHd; f_equal; lia.
Qed.

Lemma int_digits_zero d :
  Py.int_digits 0 true (digits d) = Some (Z.of_N (Pos.of_uint d)).
Proof.
  induction d; [done|..];
    cbn [NilEmpty.string_of_uint Py.int_digits Pos.of_uint];
    eval_digit; [exact IHd|apply int_digits_acc..].
Qed.

Lemma int_of_digits d :
  d ≠ Nil → Py.int_of_str (digits d) = Some (Z.of_uint d).
Proof.
  intros Hd. destruct d; [done|..];
    match goal with
    | |- context [NilEmpty.string_of_uint ?x] => exact (int_digits_zero x)
    end.
Qed.

Lemma int_digits_first d :
  d ≠ Nil → Py.int_digits 0 false (digits d) = Some (Z.of_uint d).
Proof.
  intros Hd. destruct d; [done|..];
    match goal with
    | |- context [NilEmpty.string_of_uint ?x] => exact (int_digits_zero x)
    end.
Qed.

Lemma digits_not_empty d : d ≠ Nil → digits d ≠ "".
Proof. by destruct d. Qed.

Lemma int_strip_digits d :
  d ≠ Nil → Py.int_strip_or_0 (digits d) = Ok (Z.of_uint d).
Proof.
  intros Hd. unfold Py.int_strip_or_0.
  rewrite strip_no_space by apply digits_no_space.
  pose proof (int_of_digits _ Hd) as Hi.
  pose proof (digits_not_empty _ Hd).
  destruct (digits d); [done|]. by rewrite Hi.
Qed.

Lemma int_strip_neg_digits d :
  d ≠ Nil →
  Py.int_strip_or_0 (String "-" (digits d)) = Ok (- Z.of_uint d).
Proof.
  intros Hd. unfold Py.int_strip_or_0.
  rewrite strip_no_space by (simpl; apply digits_no_space).
  cbn [Py.int_of_str].
  replace (Py.int_digits 0 false (digits d)) with (Some (Z.of_uint d)).
  - done.
  - symmetry. apply (int_digits_first _ Hd).
Qed.

(** Reading back what [str] wrote gives the number written. *)
Lemma int_str (n : Z) : Py.int_strip_or_0 (Py.str n) = Ok n.
Proof.
  destruct n as [|p|p]; [done|..]; unfold Py.str; simpl.
  - pose proof (Unsigned.to_uint_nonnil p) as Hd.
    pose proof (Unsigned.of_to p) as Hp.
    replace (NilZero.string_of_uint (Pos.to_uint p))
      with (digits (Pos.to_uint p)) by (by destruct (Pos.to_uint p)).
    rewrite (int_strip_digits _ Hd). unfold Z.of_uint. by rewrite Hp.
  - pose proof (Unsigned.to_uint_nonnil p) as Hd.
    pose proof (Unsigned.of_to p) as Hp.
    replace (NilZero.string_of_uint (Pos.to_uint p))
      with (digits (Pos.to_uint p)) by (by destruct (Pos.to_uint p)).
    rewrite (int_strip_neg_digits _ Hd). unfold Z.of_uint. by rewrite Hp.
Qed.

End IntStr.

(** ** The file semaphore *)

Section Semaphore.

Variable path : string.
Let self := FileSemaphore.__init__ path.
Let sem := FileSemaphore.sem_file_path self.
Let lock := FileSemaphore.lock_file_path self.

Lemma lock_ne_sem : lock ≠ sem.
Proof.
  subst sem lock self. simpl. induction path as [|c p IH]; [done|].
  simpl. intros [=]. by apply IH.
Qed.

Lemma open_append_lookup_ne k j (fs : gmap string string) :
  k ≠ j → FileSemaphore.open_append k fs !! j = fs !! j.
Proof.
  intros Hne. unfold FileSemaphore.open_append.
  destruct (fs !! k); [done|]. by rewrite lookup_insert_ne.
Qed.

Lemma delete_open_append k (fs : gmap string string) :
  delete k (FileSemaphore.open_append k fs) = delete k fs.
Proof.
  unfold FileSemaphore.open_append.
  destruct (fs !! k); [done|]. by rewrite delete_insert_eq.
Qed.

Lemma read_counter_ext (fs fs' : gmap string string) :
  fs' !! sem = fs !! sem →
  FileSemaphore.read_counter self fs' = FileSemaphore.read_counter self fs.
Proof. unfold FileSemaphore.read_counter. fold sem. by intros ->. Qed.

Lemma read_counter_locked (fs : gmap string string) :
  FileSemaphore.read_counter self (FileSemaphore.open_append lock fs)
  = FileSemaphore.read_counter self fs.
Proof.
  apply read_counter_ext, open_append_lookup_ne, lock_ne_sem.
Qed.

Lemma get_eq (fs : gmap string string) :
  FileSemaphore.get self fs
  = (FileSemaphore.read_counter self fs, delete lock fs).
Proof.
  unfold FileSemaphore.get, FileSemaphore._read. fold lock.
  by rewrite read_counter_locked, delete_open_append.
Qed.

Lemma get_keeps_counter_file (fs : gmap string string) :
  (FileSemaphore.get self fs).2 !! sem = fs !! sem.
Proof. rewrite get_eq. simpl. apply lookup_delete_ne, lock_ne_sem. Qed.

Lemma update_ok func (fs : gmap string string) c :
  FileSemaphore.read_counter self fs = Ok c →
  FileSemaphore._update self func fs
  = (Ok (func c), updated self (func c) fs).
Proof.
  intros Hc. unfold FileSemaphore._update. fold lock sem.
  rewrite read_counter_locked, Hc. unfold updated. fold lock sem.
  pose proof lock_ne_sem.
  rewrite delete_insert_ne, delete_open_append by done.
  destruct (func c =? 0); [|done].
  by rewrite delete_insert_eq.
Qed.

Lemma update_raise func (fs : gmap string string) e :
  FileSemaphore.read_counter self fs = Raise e →
  FileSemaphore._update self func fs = (Raise e, delete lock fs).
Proof.
  intros Hc. unfold FileSemaphore._update. fold lock sem.
  rewrite read_counter_locked, Hc. simpl.
  by rewrite delete_open_append.
Qed.

Lemma read_counter_updated counter (fs : gmap string string) :
  FileSemaphore.read_counter self (updated self counter fs) = Ok counter.
Proof.
  unfold FileSemaphore.read_counter, updated. fold sem lock.
  destruct (Z.eqb_spec counter 0) as [->|Hne].
  - by rewrite lookup_delete_eq.
  - rewrite lookup_insert_eq. apply int_str.
Qed.

Lemma read_counter_not_polling (fs : gmap string string) :
  FileSemaphore.read_counter self fs ≠ Polling.
Proof.
  unfold FileSemaphore.read_counter, Py.int_strip_or_0.
  destruct (fs !! _) as [text|]; [|done].
  destruct (Py.strip text); [done|]. by destruct (Py.int_of_str _).
Qed.

End Semaphore.

Lemma up_ok path (fs : gmap string string) c :
  let self := FileSemaphore.__init__ path in
  FileSemaphore.read_counter self fs = Ok c →
  FileSemaphore.up self fs = (Ok (c + 1), updated self (c + 1) fs).
Proof. intros self Hc. by apply (update_ok path (λ c, c + 1)). Qed.

Lemma down_ok path (fs : gmap string string) c :
  let self := FileSemaphore.__init__ path in
  FileSemaphore.read_counter self fs = Ok c →
  FileSemaphore.down self fs = (Ok (c - 1), updated self (c - 1) fs).
Proof. intros self Hc. by apply (update_ok path (λ c, c - 1)). Qed.

Lemma get_updated path counter (fs : gmap string string) :
  let self := FileSemaphore.__init__ path in
  (FileSemaphore.get self (updated self counter fs)).1 = Ok counter.
Proof. intros self. subst self. rewrite get_eq. apply read_counter_updated. Qed.

Lemma updated_drained path (fs : gmap string string) :
  let self := FileSemaphore.__init__ path in
  updated self 0 fs !! path = None.
Proof. intros self. unfold updated. simpl. apply lookup_delete_eq. Qed.

(** C2: with the counter at [c] (as [get()] reads it), [get()] leaves the
    counter file as it is, [up()] returns [c + 1] and [down()] returns
    [c - 1], and a [get()] after either returns that same new value; when
    there is no counter file [c] is 0; when [down()] returns 0 the counter
    file is gone. *)
Theorem semaphore_contract (path : string) (fs : gmap string string) (c : Z) :
  let self := FileSemaphore.__init__ path in
  (FileSemaphore.get self fs).1 = Ok c →
  (fs !! path = None → c = 0)
  ∧ (FileSemaphore.get self fs).2 !! path = fs !! path
  ∧ (∃ fs', FileSemaphore.up self fs = (Ok (c + 1), fs')
            ∧ (FileSemaphore.get self fs').1 = Ok (c + 1))
  ∧ (∃ fs', FileSemaphore.down self fs = (Ok (c - 1), fs')
            ∧ (FileSemaphore.get self fs').1 = Ok (c - 1)
            ∧ (c - 1 = 0 → fs' !! path = None)).
Proof.
  intros self Hget. subst self. rewrite get_eq in Hget. simpl in Hget.
  repeat split.
  - intros Hnone. unfold FileSemaphore.read_counter in Hget. simpl in Hget.
    rewrite Hnone in Hget. by injection Hget.
  - apply get_keeps_counter_file.
  - eexists. split; [by apply up_ok|]. apply get_updated.
  - eexists. split; [by apply down_ok|]. split; [apply get_updated|].
    intros ->. apply updated_drained.
Qed.

Lemma semaphore_contract_witness :
  (FileSemaphore.get (FileSemaphore.__init__ "/w/cnt")
     {["/w/cnt" := "2"]}).1 = Ok 2
  ∧ ∃ fs', FileSemaphore.up (FileSemaphore.__init__ "/w/cnt")
             {["/w/cnt" := "2"]} = (Ok (2 + 1), fs')
           ∧ (FileSemaphore.get (FileSemaphore.__init__ "/w/cnt") fs').1
             = Ok (2 + 1).
Proof.
  split; [vm_compute; reflexivity|].
  apply (semaphore_contract "/w/cnt" {["/w/cnt" := "2"]} 2).
  vm_compute; reflexivity.
Defined.

(** C9, as stated, fails: a counter file holding [abc] makes the three
    methods raise [ValueError]. *)
Lemma non_numeric_counter_raises :
  let self := FileSemaphore.__init__ "/w/cnt" in
  let fs : gmap string string := {["/w/cnt" := "abc"]} in
  (FileSemaphore.get self fs).1 = Raise ValueError
  ∧ (FileSemaphore.up self fs).1 = Raise ValueError
  ∧ (FileSemaphore.down self fs).1 = Raise ValueError.
Proof. vm_compute. done. Qed.

(** C9, amended: a counter file that is empty or holds only white space
    counts as 0 for [get()], [up()] and [down()], which do not raise; a
    counter file holding anything else that is not an integer makes the
    three raise [ValueError], and [up()] and [down()] then leave the
    counter file as it was. *)
Theorem counter_file_content
    (path text : string) (fs : gmap string string) :
  let self := FileSemaphore.__init__ path in
  fs !! path = Some text →
  (Py.strip text = "" →
     (FileSemaphore.get self fs).1 = Ok 0
     ∧ (FileSemaphore.up self fs).1 = Ok 1
     ∧ (FileSemaphore.down self fs).1 = Ok (-1))
  ∧ (Py.strip text ≠ "" → Py.int_of_str (Py.strip text) = None →
     (FileSemaphore.get self fs).1 = Raise ValueError
     ∧ (FileSemaphore.up self fs).1 = Raise ValueError
     ∧ (FileSemaphore.down self fs).1 = Raise ValueError
     ∧ (FileSemaphore.up self fs).2 !! path = Some text
     ∧ (FileSemaphore.down self fs).2 !! path = Some text).
Proof.
  intros self Htext. subst self. split.
  - intros Hblank.
    assert (FileSemaphore.read_counter (FileSemaphore.__init__ path) fs
            = Ok 0) as Hc.
    { unfold FileSemaphore.read_counter. simpl. rewrite Htext.
      unfold Py.int_strip_or_0. by rewrite Hblank. }
    rewrite get_eq, (up_ok _ _ _ Hc), (down_ok _ _ _ Hc). done.
  - intros Hne Hnone.
    assert (FileSemaphore.read_counter (FileSemaphore.__init__ path) fs
            = Raise ValueError) as Hc.
    { unfold FileSemaphore.read_counter. simpl. rewrite Htext.
      unfold Py.int_strip_or_0. revert Hne Hnone.
      destruct (Py.strip text) as [|a r]; [done|]. by intros _ ->. }
    rewrite get_eq. unfold FileSemaphore.up, FileSemaphore.down.
    rewrite !(update_raise _ _ _ _ Hc). simpl.
    pose proof (lock_ne_sem path) as Hlock. simpl in Hlock.
    rewrite lookup_delete_ne by done. done.
Qed.

Lemma counter_file_content_witness :
  ({["/w/cnt" := "  "]} : gmap string string) !! "/w/cnt" = Some "  "
  ∧ (FileSemaphore.up (FileSemaphore.__init__ "/w/cnt")
       {["/w/cnt" := "  "]}).1 = Ok 1.
Proof.
  split; [vm_compute; reflexivity|].
  apply (counter_file_content "/w/cnt" "  " {["/w/cnt" := "  "]});
    vm_compute; reflexivity.
Defined.

(** C10: without a counter file [down()] returns -1 and leaves a counter
    file holding [-1]; the next [up()] returns 0. *)
Theorem down_below_zero (path : string) (fs : gmap string string) :
  let self := FileSemaphore.__init__ path in
  fs !! path = None →
  ∃ fs', FileSemaphore.down self fs = (Ok (-1), fs')
         ∧ fs' !! path = Some "-1"
         ∧ (FileSemaphore.up self fs').1 = Ok 0.
Proof.
  intros self Hnone. subst self.
  assert (FileSemaphore.read_counter (FileSemaphore.__init__ path) fs
          = Ok 0) as Hc.
  { unfold FileSemaphore.read_counter. simpl. by rewrite Hnone. }
  exists (updated (FileSemaphore.__init__ path) (-1) fs).
  split; [exact (down_ok path fs 0 Hc)|]. split.
  - unfold updated. simpl. apply lookup_insert_eq.
  - by rewrite (up_ok path _ (-1) (read_counter_updated path (-1) fs)).
Qed.

Lemma down_below_zero_witness :
  (∅ : gmap string string) !! "/w/cnt" = None
  ∧ ∃ fs', FileSemaphore.down (FileSemaphore.__init__ "/w/cnt") ∅
           = (Ok (-1), fs')
         ∧ fs' !! "/w/cnt" = Some "-1"
         ∧ (FileSemaphore.up (FileSemaphore.__init__ "/w/cnt") fs').1 = Ok 0.
Proof.
  split; [reflexivity|].
  apply (down_below_zero "/w/cnt" ∅). reflexivity.
Defined.

(** ** Interleaved sessions on one counter *)

Section Interleaving.

Import Concurrent.

Variable path : string.
Let sem := FileSemaphore.__init__ path.





Lemma get_not_polling (f : gmap string string) :
  (FileSemaphore.get sem f).1 ≠ Polling.
Proof. subst sem. rewrite get_eq. apply read_counter_not_polling. Qed.















End Interleaving.



(** ** The mount stack *)

(** Brings a world built by [effect] and the setters to a [World] term. *)
Ltac world_simpl :=
  cbn [effect];
  unfold set_mtab, set_files, set_log, set_script;
  cbn [files symlinks mtab script log tail].

Section MountStack.

Lemma pop_snoc {A} (l : list A) (x : A) :
  MountsManager.pop (l ++ [x])%list = Some (l, x).
Proof.
  unfold MountsManager.pop. by rewrite reverse_snoc, reverse_involutive.
Qed.

Lemma run_quiet {S} (c : command) (s : S) fl sl mt lg :
  feasible c (World fl sl mt [] (lg ++ [c])%list) = true →
  run c s (World fl sl mt [] lg)
  = (Ok tt, s, effect c (World fl sl mt [] (lg ++ [c])%list)).
Proof.
  intros H. unfold run, set_log, set_script.
  cbn [script log files symlinks mtab tail]. by rewrite H.
Qed.

(** A command is logged whether it succeeds or not. *)
Lemma run_logged {S} (c : command) (s : S) (w : world) :
  ∃ r w', run c s w = (r, s, w') ∧ log w' = (log w ++ [c])%list
          ∧ (r = Ok tt ∨ r = Raise (ProcessExecutionError c)).
Proof.
  unfold run. destruct (_ && _).
  - eexists _, _. split; [done|]. split; [|by left].
    by destruct c; simpl; try destruct (files w !! _).
  - eexists _, _. split; [done|]. split; [done|by right].
Qed.

Lemma mount_quiet {S} (m : Mount.t) (s : S) fl sl mt lg :
  Mount.mount m s (World fl sl mt [] lg)
  = (Ok tt, s,
     World fl sl (Mount.mount_point m :: mt) []
       (lg ++ mount_commands m)%list).
Proof.
  unfold Mount.mount, mount_commands, mbind, M_bind.
  rewrite run_quiet by done. world_simpl.
  destruct (Mount.make_rslave m).
  - rewrite run_quiet.
    + world_simpl. by rewrite <- app_assoc.
    + simpl. unfold mounted. simpl. apply bool_decide_eq_true.
      apply list_elem_of_here.
  - done.
Qed.

Lemma umount_quiet {S} (m : Mount.t) (s : S) fl sl mt lg :
  Mount.umount m s (World fl sl (Mount.mount_point m :: mt) [] lg)
  = (Ok tt, s, World fl sl mt [] (lg ++ [umount_command m])%list).
Proof.
  unfold Mount.umount. fold (umount_command m). rewrite run_quiet.
  - unfold umount_command. world_simpl. simpl.
    by rewrite String.eqb_refl.
  - unfold umount_command. simpl. unfold mounted. simpl.
    apply bool_decide_eq_true, list_elem_of_here.
Qed.

Lemma add_each_quiet ms base l fl sl mt lg :
  add_each ms (MountsManager.Build base l) (World fl sl mt [] lg)
  = (Ok tt, MountsManager.Build base (l ++ ms)%list,
     World fl sl (reverse (Mount.mount_point <$> ms) ++ mt)%list []
       (lg ++ concat (mount_commands <$> ms))%list).
Proof.
  revert l mt lg. induction ms as [|m ms IH]; intros l mt lg.
  - simpl. by rewrite !app_nil_r.
  - simpl. unfold MountsManager.add, modify, mbind, M_bind.
    rewrite mount_quiet. fold (@mbind (M MountsManager.t) _).
    unfold MountsManager.set_mounts. simpl.
    etrans; [apply IH|].
    rewrite reverse_cons. unfold mount_commands.
    by rewrite <- !app_assoc.
Qed.

Lemma umount_loop_quiet l base fl sl mt lg :
  MountsManager.umount_loop (length l) (MountsManager.Build base l)
    (World fl sl (reverse (Mount.mount_point <$> l) ++ mt)%list [] lg)
  = (Ok tt, MountsManager.Build base [],
     World fl sl mt [] (lg ++ (umount_command <$> reverse l))%list).
Proof.
  revert lg. induction l as [|m l IH] using rev_ind; intros lg.
  - simpl. by rewrite app_nil_r.
  - rewrite length_app, Nat.add_1_r. simpl.
    unfold mbind, M_bind, get_self, modify. simpl.
    rewrite pop_snoc. simpl.
    rewrite fmap_app, reverse_app. simpl.
    rewrite umount_quiet. unfold MountsManager.set_mounts. simpl.
    etrans; [apply IH|].
    rewrite reverse_snoc, fmap_cons. by rewrite <- app_assoc.
Qed.

(** In any world [umount_all] runs the [umount] of the records from the
    last added backwards, stops at the first that fails, and keeps in the
    stack the records it has not popped. *)
Lemma umount_loop_attempts l base w :
  ∃ k r w',
    MountsManager.umount_loop (length l) (MountsManager.Build base l) w
    = (r, MountsManager.Build base (take (length l - k) l), w')
    ∧ (k ≤ length l)%nat
    ∧ log w' = (log w ++ (umount_command <$> take k (reverse l)))%list
    ∧ (r = Ok tt → k = length l)
    ∧ (∀ e, r = Raise e →
         ∃ m, reverse l !! (k - 1)%nat = Some m ∧ (0 < k)%nat
              ∧ e = ProcessExecutionError (umount_command m))
    ∧ r ≠ Polling.
Proof.
  revert w. induction l as [|m l IH] using rev_ind; intros w.
  - exists O, (Ok tt), w. simpl. rewrite app_nil_r.
    repeat split; try done.
  - rewrite length_app, Nat.add_1_r. simpl.
    unfold mbind, M_bind, get_self, modify. simpl.
    rewrite pop_snoc. simpl. unfold Mount.umount.
    fold (umount_command m).
    destruct (run_logged (umount_command m)
                (MountsManager.set_mounts l (MountsManager.Build base
                   (l ++ [m])%list)) w) as (r & w1 & -> & Hlog & [->| ->]).
    + unfold MountsManager.set_mounts. simpl.
      destruct (IH w1) as (k & r & w' & -> & Hk & Hlog' & Hok & Hraise & Hp).
      exists (S k), r, w'. rewrite reverse_snoc. simpl.
      rewrite take_app_le by lia.
      repeat split; try done.
      * lia.
      * rewrite Hlog', Hlog. by rewrite <- app_assoc.
      * intros Hr. rewrite (Hok Hr). done.
      * intros e He. destruct (Hraise e He) as (m' & Hm' & Hpos & ->).
        exists m'. rewrite Nat.sub_0_r.
        destruct k as [|k]; [lia|]. simpl in Hm'.
        rewrite Nat.sub_0_r in Hm'.
        split; [exact Hm'|]. split; [lia|done].
    + exists 1%nat, (Raise (ProcessExecutionError (umount_command m))), w1.
      unfold MountsManager.set_mounts. simpl.
      rewrite reverse_snoc, Nat.sub_0_r, take_app_length. simpl.
      repeat split; try done.
      * lia.
      * intros e [= <-]. exists m. split; [done|]. split; [lia|done].
Qed.

End MountStack.

(** C5: in any world [umount_all] runs the [umount] commands of the records
    in the exact reverse of their order in the stack, as far as it gets, and
    when it returns the stack is empty; and when no command fails, the mounts
    [ms] added in that order to a new manager are all mounted, [umount_all]
    returns, has unmounted them from the last added to the first, and the
    stack is empty and the mount table as before the additions. *)
Theorem umount_all_reverse_order
    (base : string) (ms : list Mount.t) (w : world) :
  (∃ k r w',
     MountsManager.umount_all (MountsManager.Build base ms) w
     = (r, MountsManager.Build base (take (length ms - k) ms), w')
     ∧ log w' = (log w ++ (umount_command <$> take k (reverse ms)))%list
     ∧ (r = Ok tt → k = length ms))
  ∧ (script w = [] →
     ∃ w1 w2,
       add_each ms (MountsManager.__init__ base) w
       = (Ok tt, MountsManager.Build base ms, w1)
       ∧ mtab w1 = (reverse (Mount.mount_point <$> ms) ++ mtab w)%list
       ∧ MountsManager.umount_all (MountsManager.Build base ms) w1
         = (Ok tt, MountsManager.Build base [], w2)
       ∧ log w2 = (log w1 ++ (umount_command <$> reverse ms))%list
       ∧ mtab w2 = mtab w).
Proof.
  split.
  - destruct (umount_loop_attempts ms base w)
      as (k & r & w' & Hrun & _ & Hlog & Hok & _).
    exists k, r, w'. by repeat split.
  - destruct w as [fl sl mt sc lg]. simpl. intros ->.
    eexists _, _. unfold MountsManager.__init__.
    rewrite add_each_quiet. simpl.
    split; [done|]. split; [done|].
    unfold MountsManager.umount_all, mbind, M_bind, get_self. simpl.
    rewrite umount_loop_quiet. by repeat split.
Qed.

Lemma umount_all_reverse_order_witness :
  let A := Mount.Build "geni_tmpfs" "/c/tmp" ["--types"; "tmpfs"] false in
  let B := Mount.Build "/proc" "/c/proc" ["--types"; "proc"] true in
  let C := Mount.Build "/sys" "/c/sys" ["--rbind"] true in
  let w := World ∅ ∅ [] [] [] in
  script w = []
  ∧ ∃ w1 w2,
      add_each [A; B; C] (MountsManager.__init__ "/c") w
      = (Ok tt, MountsManager.Build "/c" [A; B; C], w1)
      ∧ mtab w1 = ["/c/sys"; "/c/proc"; "/c/tmp"]
      ∧ MountsManager.umount_all (MountsManager.Build "/c" [A; B; C]) w1
        = (Ok tt, MountsManager.Build "/c" [], w2)
      ∧ log w2 = (log w1 ++ [SudoUmount true "/c/sys";
                             SudoUmount true "/c/proc";
                             SudoUmount false "/c/tmp"])%list
      ∧ mtab w2 = [].
Proof.
  intros A B C w. split; [reflexivity|].
  apply (umount_all_reverse_order "/c" [A; B; C] w). reflexivity.
Defined.

(** C4: the invariant of the stack breaks on both failures.  When the
    [mount] command of a record fails, [add] has already put the record in
    the stack, where it stays, not mounted; when the [umount] command of a
    record fails, [umount_all] has already popped it, and it is off the
    stack, still mounted. *)
Theorem mount_stack_invariant_broken :
  let A := Mount.Build "geni_tmpfs" "/c/tmp" ["--types"; "tmpfs"] false in
  (∃ w',
     MountsManager.add A (MountsManager.__init__ "/c")
       (World ∅ ∅ [] [false] [])
     = (Raise (ProcessExecutionError
                 (SudoMount ["--types"; "tmpfs"] "geni_tmpfs" "/c/tmp")),
        MountsManager.Build "/c" [A], w')
     ∧ mounted "/c/tmp" w' = false)
  ∧ (∃ w',
       MountsManager.umount_all (MountsManager.Build "/c" [A])
         (World ∅ ∅ ["/c/tmp"] [false] [])
       = (Raise (ProcessExecutionError (SudoUmount false "/c/tmp")),
          MountsManager.Build "/c" [], w')
       ∧ mounted "/c/tmp" w' = true).
Proof. split; eexists; split; vm_compute; reflexivity. Qed.

(** C3: an [__enter__] that fails in the middle of the mounts leaks a
    mount.  The resolver copy and the tmpfs mount succeed and the mount of
    [/proc] fails: [__enter__] runs [clean_up], the counter is taken back
    down and its file removed, but [umount_all] pops the record of the
    failed mount first, its [umount] fails, and the tmpfs stays mounted and
    in the stack; the error that propagates is that of the [umount]. *)
Theorem failed_enter_leaks_mount :
  let self :=
    Chroot.__init__ (λ _, "2fd4e1c67a2d28fced849ee1bb76e7391b93eb12")
      "/work/gentoo" "/var/tmp/geni" in
  let w :=
    World {["/etc/resolv.conf" := "nameserver 10.0.0.1"]} ∅ []
      [true; true; false] [] in
  ∃ self' w',
    Chroot.__enter__ 1 self w
    = (Raise (ProcessExecutionError (SudoUmount true "/work/gentoo/proc")),
       self', w')
    ∧ log w'
      = [SudoCp "/etc/resolv.conf" "/work/gentoo/etc/resolv.conf";
         SudoMount ["--types"; "tmpfs"] "geni_tmpfs" "/work/gentoo/tmp";
         SudoMount ["--types"; "proc"] "/proc" "/work/gentoo/proc";
         SudoUmount true "/work/gentoo/proc";
         SudoRm "/work/gentoo/etc/resolv.conf"]
    ∧ files w' !! FileSemaphore.sem_file_path (Chroot.semaphore self) = None
    ∧ mtab w' = ["/work/gentoo/tmp"]
    ∧ MountsManager.mounts (Chroot.mounts_mgr self')
      = [Mount.Build "geni_tmpfs" "/work/gentoo/tmp" ["--types"; "tmpfs"]
           false].
Proof. eexists _, _. split; [vm_compute; reflexivity|]. by vm_compute. Qed.

(** C6: an [__enter__] that is not the first checks the mount points of
    the host, not those of the chroot tree.  With the counter at 1, the
    resolver copy in place, nothing mounted in the chroot tree and [/tmp],
    [/proc], [/sys], [/dev] mounted on the host, it returns an executor,
    having run [mountpoint -q] on the four host paths; and a first
    [__enter__] on a host whose [/tmp] is not a mount point fails after
    having mounted the four mount points of the chroot tree. *)
Theorem peer_enter_checks_host_mount_points :
  let self :=
    Chroot.__init__ (λ _, "2fd4e1c67a2d28fced849ee1bb76e7391b93eb12")
      "/work/gentoo" "/var/tmp/geni" in
  let cnt := FileSemaphore.sem_file_path (Chroot.semaphore self) in
  let w :=
    World {["/etc/resolv.conf" := "nameserver 10.0.0.1";
            "/work/gentoo/etc/resolv.conf" := "nameserver 10.0.0.1";
            cnt := "1"]} ∅ ["/dev"; "/sys"; "/proc"; "/tmp"] [] [] in
  let w0 :=
    World {["/etc/resolv.conf" := "nameserver 10.0.0.1"]} ∅
      ["/dev"; "/sys"; "/proc"] [] [] in
  (∃ self' w',
     Chroot.__enter__ 1 self w = (Ok (ChrootExec.Build "/work/gentoo"),
                                  self', w')
     ∧ Chroot.master self' = false
     ∧ log w'
       = [Diff "/etc/resolv.conf" "/work/gentoo/etc/resolv.conf";
          Mountpoint "/tmp"; Mountpoint "/proc"; Mountpoint "/sys";
          Mountpoint "/dev"]
     ∧ mtab w' = ["/dev"; "/sys"; "/proc"; "/tmp"])
  ∧ (∃ self' w',
       Chroot.__enter__ 1 self w0
       = (Raise (ProcessExecutionError (Mountpoint "/tmp")), self', w')
       ∧ take 10 (log w')
         = [SudoCp "/etc/resolv.conf" "/work/gentoo/etc/resolv.conf";
            SudoMount ["--types"; "tmpfs"] "geni_tmpfs" "/work/gentoo/tmp";
            SudoMount ["--types"; "proc"] "/proc" "/work/gentoo/proc";
            SudoMakeRslave "/work/gentoo/proc";
            SudoMount ["--rbind"] "/sys" "/work/gentoo/sys";
            SudoMakeRslave "/work/gentoo/sys";
            SudoMount ["--rbind"] "/dev" "/work/gentoo/dev";
            SudoMakeRslave "/work/gentoo/dev";
            Diff "/etc/resolv.conf" "/work/gentoo/etc/resolv.conf";
            Mountpoint "/tmp"]).
Proof.
  split; eexists _, _; (split; [vm_compute; reflexivity|]); by vm_compute.
Qed.

(** ** Master setup and the resolver copy *)

(** C7, as stated, fails: with [dev/shm] of the chroot tree a symbolic link
    and [/dev/shm] of the host not one, the master setup runs its four
    mounts and returns. *)
Lemma chroot_dev_shm_link_not_checked :
  let self :=
    Chroot.__init__ (λ _, "2fd4e1c67a2d28fced849ee1bb76e7391b93eb12")
      "/work/gentoo" "/var/tmp/geni" in
  let w := World ∅ {["/work/gentoo/dev/shm"]} [] [] [] in
  islink "/work/gentoo/dev/shm" w = true
  ∧ ∃ self' w',
      Chroot.mount_all self w = (Ok tt, self', w')
      ∧ mtab w' = ["/work/gentoo/dev"; "/work/gentoo/sys";
                   "/work/gentoo/proc"; "/work/gentoo/tmp"].
Proof.
  split; [vm_compute; reflexivity|].
  eexists _, _. split; vm_compute; reflexivity.
Qed.

(** C7, amended: when [/dev/shm] of the host is a symbolic link,
    [mount_all] raises, and the only command it has run is the mount of the
    tmpfs on [tmp] of the chroot tree: either that mount failed, or it
    succeeded and [GeniException] is raised before the mounts of [/proc],
    [/sys] and [/dev] are attempted. *)
Theorem host_dev_shm_link_stops_setup (self : Chroot.t) (w : world) :
  let tmpfs :=
    SudoMount ["--types"; "tmpfs"] "geni_tmpfs"
      (Path.join (MountsManager.base_dir (Chroot.mounts_mgr self)) "tmp") in
  islink "/dev/shm" w = true →
  ∃ e self' w',
    Chroot.mount_all self w = (Raise e, self', w')
    ∧ log w' = (log w ++ [tmpfs])%list
    ∧ (e = ProcessExecutionError tmpfs
       ∨ e = GeniException "/dev/shm is not a directory"
         ∧ mtab w'
           = Path.join (MountsManager.base_dir (Chroot.mounts_mgr self)) "tmp"
             :: mtab w).
Proof.
  intros tmpfs Hlink.
  unfold Chroot.mount_all, Chroot.on_mounts_mgr, zoom, MountsManager.mount,
    MountsManager.add, Mount.mount, modify, get_self, get_world, mbind,
    M_bind.
  cbn [Mount.make_rslave Mount.opts Mount.device Mount.mount_point
       Path.lstrip_slash].
  fold tmpfs. unfold run.
  destruct (_ && _) eqn:Hok.
  - unfold mret, M_ret. cbn [fst snd].
    assert (islink "/dev/shm"
              (effect tmpfs
                 (set_log (log w ++ [tmpfs])%list
                    (set_script (tail (script w)) w))) = true) as ->.
    { unfold islink in *. by destruct w. }
    unfold raise. eexists _, _, _. split; [done|].
    split; [by destruct w|]. right. split; [done|]. by destruct w.
  - eexists _, _, _. split; [done|]. split; [by destruct w|]. by left.
Qed.

Lemma host_dev_shm_link_stops_setup_witness :
  let self :=
    Chroot.__init__ (λ _, "2fd4e1c67a2d28fced849ee1bb76e7391b93eb12")
      "/work/gentoo" "/var/tmp/geni" in
  let w := World ∅ {["/dev/shm"]} [] [] [] in
  islink "/dev/shm" w = true
  ∧ ∃ e self' w',
      Chroot.mount_all self w = (Raise e, self', w')
      ∧ log w' = [SudoMount ["--types"; "tmpfs"] "geni_tmpfs"
                    "/work/gentoo/tmp"].
Proof.
  intros self w. split; [vm_compute; reflexivity|].
  destruct (host_dev_shm_link_stops_setup self w) as (e & s' & w' & H & Hl & _);
    [vm_compute; reflexivity|].
  exists e, s', w'. split; [exact H|exact Hl].
Defined.

(** C8, as stated, fails: with a foreign [resolv.conf] already in the
    chroot tree, [copy] returns and the file now holds the host's text. *)
Lemma copy_overwrites_existing_target :
  let self := FileTempInst.__init__ "/work/gentoo" "/etc/resolv.conf" in
  let w :=
    World {["/etc/resolv.conf" := "nameserver 10.0.0.1";
            "/work/gentoo/etc/resolv.conf" := "nameserver 192.168.0.1"]}
      ∅ [] [] [] in
  exists_file "/work/gentoo/etc/resolv.conf" w = true
  ∧ ∃ self' w',
      FileTempInst.copy self w = (Ok tt, self', w')
      ∧ files w' !! "/work/gentoo/etc/resolv.conf"
        = Some "nameserver 10.0.0.1".
Proof.
  split; [vm_compute; reflexivity|].
  eexists _, _. split; vm_compute; reflexivity.
Qed.

(** C8, amended: [copy] makes no check of the target.  It runs [cp] from
    the host path to the path in the chroot tree; when the command succeeds
    (the host file exists, is not the target itself, and nothing outside
    fails) the target holds the text of the host file, whether it existed
    before or not, and the path is recorded for removal; when it fails,
    [ProcessExecutionError] is raised, no file has changed and nothing is
    recorded. *)
Theorem copy_ignores_target (self : FileTempInst.t) (w : world) :
  let inst := FileTempInst.inst self in
  let rel := FileTempInst.file_path self in
  let src := FileInstaller._make_source_path inst rel in
  let tgt := FileInstaller._make_target_path inst rel in
  let ok :=
    match script w with b :: _ => b | [] => true end
    && (bool_decide (is_Some (files w !! src))
        && negb (String.eqb src tgt)) in
  ∃ w',
    log w' = (log w ++ [SudoCp src tgt])%list
    ∧ if ok then
        FileTempInst.copy self w
        = (Ok tt,
           FileTempInst.Build
             (FileInstaller.set_files (FileInstaller.files inst ++ [rel])%list
                inst) rel,
           w')
        ∧ files w' !! tgt = files w !! src
        ∧ ∀ p, p ≠ tgt → files w' !! p = files w !! p
      else
        FileTempInst.copy self w
        = (Raise (ProcessExecutionError (SudoCp src tgt)), self, w')
        ∧ files w' = files w.
Proof.
  intros inst rel src tgt ok.
  unfold FileTempInst.copy, FileTempInst.on_inst, zoom, FileInstaller.copy,
    modify, get_self, mbind, M_bind, mret, M_ret, run.
  fold inst rel. fold src tgt.
  cbn [feasible]. unfold exists_file, set_log, set_script.
  cbn [files script log symlinks mtab]. fold ok.
  destruct ok eqn:Hok; cbn [fst snd].
  - eexists. split; [|split; [reflexivity|]].
    + cbn [effect]. unfold set_log, set_script, set_files.
      cbn [files script log symlinks mtab].
      by destruct (files w !! src).
    + subst ok. apply andb_prop in Hok as [_ [Hsrc _]%andb_prop].
      apply bool_decide_eq_true in Hsrc as [text Hsrc].
      cbn [effect]. unfold set_files. cbn [files]. rewrite Hsrc.
      cbn [files]. split.
      * apply lookup_insert_eq.
      * intros p Hp. by apply lookup_insert_ne.
  - eexists. split; [|split].
    2: by destruct self.
    + reflexivity.
    + reflexivity.
Qed.

Lemma copy_ignores_target_witness :
  let self := FileTempInst.__init__ "/work/gentoo" "/etc/resolv.conf" in
  let w :=
    World {["/etc/resolv.conf" := "nameserver 10.0.0.1";
            "/work/gentoo/etc/resolv.conf" := "nameserver 192.168.0.1"]}
      ∅ [] [] [] in
  ∃ w', log w' = [SudoCp "/etc/resolv.conf" "/work/gentoo/etc/resolv.conf"]
        ∧ (FileTempInst.copy self w).1.1 = Ok tt
        ∧ files w' !! "/work/gentoo/etc/resolv.conf"
          = Some "nameserver 10.0.0.1".
Proof.
  intros self w.
  destruct (copy_ignores_target self w) as (w' & Hlog & H).
  exists w'. split; [exact Hlog|].
  destruct H as (Hcopy & Htgt & _).
  split; [by rewrite Hcopy|]. etrans; [exact Htgt|].
  vm_compute. reflexivity.
Defined.

(** ** What an entrant that is not the first does *)

Section Peer.

Variable path : string.
Variable self : Chroot.t.
Hypothesis Hsem : Chroot.semaphore self = FileSemaphore.__init__ path.

(** A command that only looks: the world keeps its files and mounts. *)
Lemma run_look {S} (c : command) (s : S) (w : world) :
  (∀ w0, effect c w0 = w0) →
  ∃ r sc,
    run c s w = (r, s, World (files w) (symlinks w) (mtab w) sc
                         (log w ++ [c])%list)
    ∧ (r = Ok tt ∨ r = Raise (ProcessExecutionError c)).
Proof.
  intros Hlook. unfold run. rewrite Hlook. unfold set_log, set_script.
  cbn [files symlinks mtab script log].
  destruct (_ && _); eexists _, _; (split; [done|]); [by left|by right].
Qed.

Lemma ensure_all_mounted_looks (w : world) :
  ∃ r k sc,
    Chroot.ensure_all_mounted self w
    = (r, self, World (files w) (symlinks w) (mtab w) sc
                  (log w ++ take k (drop 1 (peer_checks self)))%list)
    ∧ (r = Ok tt → k = 4%nat) ∧ r ≠ Polling.
Proof.
  unfold Chroot.ensure_all_mounted, mbind, M_bind. cbn [peer_checks drop].
  destruct (run_look (Mountpoint "/tmp") self w) as (r1 & sc1 & -> & [-> | ->]);
    [done| |exists (Raise (ProcessExecutionError (Mountpoint "/tmp"))),
              1%nat, sc1; by repeat split].
  destruct (run_look (Mountpoint "/proc") self
              (World (files w) (symlinks w) (mtab w) sc1
                 (log w ++ [Mountpoint "/tmp"])%list))
    as (r2 & sc2 & -> & [-> | ->]);
    [done| |exists (Raise (ProcessExecutionError (Mountpoint "/proc"))),
              2%nat, sc2; cbn [files symlinks mtab log take];
            rewrite <- app_assoc; by repeat split].
  cbn [files symlinks mtab log]. rewrite <- app_assoc. cbn [app].
  destruct (run_look (Mountpoint "/sys") self
              (World (files w) (symlinks w) (mtab w) sc2
                 (log w ++ [Mountpoint "/tmp"; Mountpoint "/proc"])%list))
    as (r3 & sc3 & -> & [-> | ->]);
    [done| |exists (Raise (ProcessExecutionError (Mountpoint "/sys"))),
              3%nat, sc3; cbn [files symlinks mtab log take];
            rewrite <- app_assoc; by repeat split].
  cbn [files symlinks mtab log]. rewrite <- app_assoc. cbn [app].
  destruct (run_look (Mountpoint "/dev") self
              (World (files w) (symlinks w) (mtab w) sc3
                 (log w ++ [Mountpoint "/tmp"; Mountpoint "/proc";
                            Mountpoint "/sys"])%list))
    as (r4 & sc4 & -> & [-> | ->]); [done|..];
    cbn [files symlinks mtab log take]; rewrite <- app_assoc.
  - exists (Ok tt), 4%nat, sc4. by repeat split.
  - exists (Raise (ProcessExecutionError (Mountpoint "/dev"))), 4%nat, sc4.
    by repeat split.
Qed.

(** With the counter at 1 or more, [prepare] changes nothing in the object
    (so [master] stays as it was), runs no mount and no copy, and what it
    runs is, in order and until one fails, a [diff] of the resolver copy
    against the host's file and [mountpoint -q] on [/tmp], [/proc], [/sys]
    and [/dev]: paths of the host, whatever the chroot directory is. *)
Lemma peer_prepare (w : world) (c : Z) :
  FileSemaphore.read_counter (Chroot.semaphore self) (files w) = Ok c →
  1 ≤ c →
  ∃ r k w',
    Chroot.prepare self w = (r, self, w')
    ∧ mtab w' = mtab w
    ∧ log w' = (log w ++ take k (peer_checks self))%list
    ∧ (r = Ok tt → k = 5%nat).
Proof.
  intros Hc Hpos. rewrite Hsem in Hc.
  unfold Chroot.prepare, Chroot.semaphore_up, Chroot.semaphore_get,
    FileSemaphore.call, get_self, mbind, M_bind.
  rewrite Hsem, (up_ok path _ _ Hc). cbn [fst snd].
  destruct (Z.eqb_spec (c + 1) 1) as [|_]; [lia|].
  unfold set_files at 1. cbn [files].
  rewrite Hsem, get_eq, read_counter_updated.
  destruct (Z.ltb_spec 1 (c + 1)) as [_|]; [|lia].
  unfold mret, M_ret, Chroot.on_resolv_conf, zoom,
    FileTempInst.ensure_is_copied, FileTempInst.on_inst, zoom,
    FileInstaller.ensure_is_copied, get_self, mbind, M_bind.
  set (w1 := set_files _ _).
  set (chk := Diff _ _).
  destruct (run_look chk (FileTempInst.inst (Chroot.resolv_conf self)) w1)
    as (r1 & sc1 & -> & [-> | ->]); [done|..].
  - cbn [fst snd].
    replace (Chroot.Build _ _ _ _ _) with self
      by (by destruct self as [? ? ? [] ?]).
    destruct (ensure_all_mounted_looks
                (World (files w1) (symlinks w1) (mtab w1) sc1
                   (log w1 ++ [chk])%list))
      as (r & k & sc & -> & Hk & _).
    exists r, (S k). eexists. split; [done|].
    cbn [files symlinks mtab log]. split; [done|]. split.
    + rewrite <- app_assoc. done.
    + intros Hr. by rewrite (Hk Hr).
  - cbn [fst snd]. exists (Raise (ProcessExecutionError chk)), 1%nat.
    eexists. split; [by destruct self as [? ? ? [] ?]|]. by repeat split.
Qed.

End Peer.

(** ** The wait of a master, with nobody else running *)

(** While no other process runs, the counter the master reads does not
    change: with the counter above 0 the loop is still polling after any
    number of reads, and with the counter at 0 or below it ends at the
    first read. *)
Lemma wait_drained_alone (path : string) (self : Chroot.t) (v : Z) :
  Chroot.semaphore self = FileSemaphore.__init__ path →
  ∀ (fuel : nat) (w : world),
    FileSemaphore.read_counter (Chroot.semaphore self) (files w) = Ok v →
    (0 < v → (Chroot.wait_drained fuel self w).1.1 = Polling)
    ∧ (v ≤ 0 → (0 < fuel)%nat →
       ∃ w', Chroot.wait_drained fuel self w = (Ok tt, self, w')
             ∧ log w' = log w ∧ mtab w' = mtab w).
Proof.
  intros Hsem fuel. induction fuel as [|fuel IH]; intros w Hv.
  - split; [done|lia].
  - cbn [Chroot.wait_drained].
    unfold Chroot.semaphore_get, FileSemaphore.call, get_self, mbind, M_bind.
    rewrite Hsem in Hv |- *. rewrite get_eq, Hv. split.
    + intros Hpos. destruct (Z.ltb_spec 0 v) as [_|]; [|lia].
      apply IH; [|done]. rewrite Hsem. unfold set_files. cbn [files].
      rewrite <- Hv. apply read_counter_ext.
      apply lookup_delete_ne, lock_ne_sem.
    + intros Hle _. destruct (Z.ltb_spec 0 v) as [|_]; [lia|].
      eexists. split; [done|]. by destruct w.
Qed.

(** * Further properties of the code *)

(** ** The file semaphore: what it leaves on disk *)

Lemma updated_lookup_lock path counter (fs : gmap string string) :
  updated (FileSemaphore.__init__ path) counter fs !! (path ++ ".lock")
  = None.
Proof.
  pose proof (lock_ne_sem path) as Hne. simpl in Hne.
  unfold updated. simpl. destruct (counter =? 0).
  - rewrite lookup_delete_ne by done. apply lookup_delete_eq.
  - rewrite lookup_insert_ne by done. apply lookup_delete_eq.
Qed.

Lemma updated_lookup_other path counter (fs : gmap string string) p :
  p ≠ path → p ≠ path ++ ".lock" →
  updated (FileSemaphore.__init__ path) counter fs !! p = fs !! p.
Proof.
  intros Hp Hl. unfold updated. simpl. destruct (counter =? 0).
  - by rewrite !lookup_delete_ne.
  - by rewrite lookup_insert_ne, lookup_delete_ne.
Qed.

(** X1: whatever the files hold, also a counter file that makes the
    method raise, [up()], [down()] and [get()] leave no lock file behind
    and touch no file besides the counter file and the lock file. *)
Theorem semaphore_leaves_no_lock (path : string) (fs : gmap string string) :
  let self := FileSemaphore.__init__ path in
  let lock := FileSemaphore.lock_file_path self in
  Forall
    (λ method : gmap string string → outcome Z * gmap string string,
       (method fs).2 !! lock = None
       ∧ ∀ p, p ≠ path → p ≠ lock → (method fs).2 !! p = fs !! p)
    [FileSemaphore.up self; FileSemaphore.down self; FileSemaphore.get self].
Proof.
  intros self lock. subst self lock. simpl.
  assert (∀ func,
            (FileSemaphore._update (FileSemaphore.__init__ path) func fs).2
              !! (path ++ ".lock") = None
            ∧ ∀ p, p ≠ path → p ≠ path ++ ".lock" →
                (FileSemaphore._update (FileSemaphore.__init__ path) func
                   fs).2 !! p = fs !! p) as Hupd.
  { intros func.
    destruct (FileSemaphore.read_counter (FileSemaphore.__init__ path) fs)
      as [c|e|] eqn:Hc.
    - rewrite (update_ok _ _ _ _ Hc). simpl. split.
      + apply updated_lookup_lock.
      + intros p Hp Hl. by apply updated_lookup_other.
    - rewrite (update_raise _ _ _ _ Hc). simpl. split.
      + apply lookup_delete_eq.
      + intros p _ Hl. by apply lookup_delete_ne.
    - by apply read_counter_not_polling in Hc. }
  repeat constructor; try apply Hupd.
  all: rewrite get_eq; simpl.
  - apply lookup_delete_eq.
  - intros p _ Hl. by apply lookup_delete_ne.
Qed.

(** X2: an [up()] followed by a [down()] gives the counter its value back:
    [down()] returns what the counter was before the [up()], and when
    there was no counter file before there is none after. *)
Theorem up_then_down (path : string) (fs : gmap string string) (c : Z) :
  let self := FileSemaphore.__init__ path in
  (FileSemaphore.get self fs).1 = Ok c →
  ∃ fs1 fs2,
    FileSemaphore.up self fs = (Ok (c + 1), fs1)
    ∧ FileSemaphore.down self fs1 = (Ok c, fs2)
    ∧ (FileSemaphore.get self fs2).1 = Ok c
    ∧ (fs !! path = None → fs2 !! path = None).
Proof.
  intros self Hget. subst self. rewrite get_eq in Hget. simpl in Hget.
  eexists _, _. split; [by apply up_ok|].
  pose proof (down_ok path _ _ (read_counter_updated path (c + 1) fs)) as Hd.
  cbv zeta in Hd. replace (c + 1 - 1) with c in Hd by lia.
  split; [exact Hd|]. split; [apply get_updated|].
  intros Hnone.
  unfold FileSemaphore.read_counter in Hget. simpl in Hget.
  rewrite Hnone in Hget. injection Hget as <-. apply updated_drained.
Qed.

Lemma up_then_down_witness :
  (FileSemaphore.get (FileSemaphore.__init__ "/w/cnt") ∅).1 = Ok 0
  ∧ ∃ fs1 fs2,
      FileSemaphore.up (FileSemaphore.__init__ "/w/cnt") ∅ = (Ok (0 + 1), fs1)
      ∧ FileSemaphore.down (FileSemaphore.__init__ "/w/cnt") fs1
        = (Ok 0, fs2)
      ∧ (FileSemaphore.get (FileSemaphore.__init__ "/w/cnt") fs2).1 = Ok 0
      ∧ ((∅ : gmap string string) !! "/w/cnt" = None
         → fs2 !! "/w/cnt" = None).
Proof.
  split; [vm_compute; reflexivity|].
  apply (up_then_down "/w/cnt" ∅ 0). vm_compute; reflexivity.
Defined.

(** ** Who is master, and when a master tears down *)

Section Masters.

Import Concurrent.

Variable path : string.
Let sem := FileSemaphore.__init__ path.








Lemma with_protocol_snoc es e s :
  with_protocol sem s (es ++ [e]) = true →
  with_protocol sem s es = true ∧ allowed (exec sem s es) e = true.
Proof.
  revert s. induction es as [|e' es IH]; intros s; simpl.
  - by intros [-> _]%andb_prop.
  - intros [-> H]%andb_prop. simpl. by apply IH.
Qed.

End Masters.





(** ** [Mount]: partial failure and scoped use *)

(** X5: [mount] is not all or nothing.  For a record made with
    [make_rslave], when the [mount] command succeeds and the
    [mount --make-rslave] that follows fails, [mount] raises with the mount
    point left mounted. *)
Theorem mount_rslave_failure_leaves_mounted
    {S : Type} (m : Mount.t) (s : S) (w : world) (sc : list bool) :
  Mount.make_rslave m = true →
  script w = true :: false :: sc →
  ∃ w',
    Mount.mount m s w
    = (Raise (ProcessExecutionError (SudoMakeRslave (Mount.mount_point m))),
       s, w')
    ∧ mtab w' = Mount.mount_point m :: mtab w
    ∧ log w'
      = (log w
         ++ [SudoMount (Mount.opts m) (Mount.device m) (Mount.mount_point m);
             SudoMakeRslave (Mount.mount_point m)])%list.
Proof.
  intros Hrs Hsc. destruct w as [fl sl mt sc' lg]. simpl in Hsc. subst sc'.
  unfold Mount.mount, mbind, M_bind, run. rewrite Hrs. simpl.
  eexists. split; [done|]. split; [done|]. simpl.
  by rewrite <- app_assoc.
Qed.

Lemma mount_rslave_failure_leaves_mounted_witness :
  let m := Mount.Build "/proc" "/c/proc" ["--types"; "proc"] true in
  let w := World ∅ ∅ [] [true; false] [] in
  Mount.make_rslave m = true
  ∧ ∃ w',
      Mount.mount m tt w
      = (Raise (ProcessExecutionError (SudoMakeRslave "/c/proc")), tt, w')
      ∧ mtab w' = ["/c/proc"]
      ∧ log w' = [SudoMount ["--types"; "proc"] "/proc" "/c/proc";
                  SudoMakeRslave "/c/proc"].
Proof.
  intros m w. split; [reflexivity|].
  apply (mount_rslave_failure_leaves_mounted m tt w []); reflexivity.
Defined.

(** X6: a [Mount] used as a context manager, when no command fails:
    [__enter__] returns the mount point, [__exit__] returns [False], the
    mount table is afterwards what it was, and the commands run are those
    of [mount] followed by the [umount], with [-R] exactly for a record made
    with [make_rslave]. *)
Theorem mount_scope_round_trip
    {S : Type} (m : Mount.t) (s : S) (w : world) :
  script w = [] →
  ∃ w1 w2,
    Mount.__enter__ m s w = (Ok (Mount.mount_point m), s, w1)
    ∧ mtab w1 = Mount.mount_point m :: mtab w
    ∧ Mount.__exit__ m s w1 = (Ok false, s, w2)
    ∧ mtab w2 = mtab w
    ∧ files w2 = files w
    ∧ log w2
      = (log w ++ mount_commands m
         ++ [SudoUmount (Mount.make_rslave m) (Mount.mount_point m)])%list.
Proof.
  destruct w as [fl sl mt sc lg]. simpl. intros ->.
  unfold Mount.__enter__, Mount.__exit__, mbind, M_bind.
  rewrite mount_quiet. eexists _, _. split; [done|]. split; [done|].
  rewrite umount_quiet. split; [done|]. split; [done|]. split; [done|].
  simpl. by rewrite <- app_assoc.
Qed.

Lemma mount_scope_round_trip_witness :
  let m := Mount.Build "/sys" "/c/sys" ["--rbind"] true in
  let w := World ∅ ∅ ["/tmp"] [] [] in
  script w = []
  ∧ ∃ w1 w2,
      Mount.__enter__ m tt w = (Ok "/c/sys", tt, w1)
      ∧ mtab w1 = ["/c/sys"; "/tmp"]
      ∧ Mount.__exit__ m tt w1 = (Ok false, tt, w2)
      ∧ mtab w2 = ["/tmp"]
      ∧ files w2 = ∅
      ∧ log w2 = [SudoMount ["--rbind"] "/sys" "/c/sys";
                  SudoMakeRslave "/c/sys"; SudoUmount true "/c/sys"].
Proof.
  intros m w. split; [reflexivity|].
  apply (mount_scope_round_trip m tt w). reflexivity.
Defined.

(** ** Paths built from a base directory *)

Lemma prefix_app (a b : string) : String.prefix a (a ++ b) = true.
Proof.
  induction a as [|c a IH]; simpl; [by destruct b|].
  destruct (ascii_dec c c); [exact IH|done].
Qed.

Lemma lstrip_slash_cases (d : string) :
  Path.lstrip_slash d = ""
  ∨ ∃ c r, Path.lstrip_slash d = String c r ∧ c ≠ "/"%char.
Proof.
  induction d as [|c d IH]; [by left|].
  destruct (Ascii.eqb_spec c "/") as [->|Hc]; [exact IH|].
  right. exists c, d. split; [|done].
  destruct c as [[] [] [] [] [] [] [] []]; try done.
Qed.

(** [os.path.join] of a base and a name stripped of its leading slashes:
    the base, a slash unless the base is empty or ends with one, and the
    stripped name. *)
Lemma join_lstrip (base d : string) :
  ∃ sep, (sep = "" ∨ sep = "/")
         ∧ Path.join base (Path.lstrip_slash d)
           = base ++ sep ++ Path.lstrip_slash d.
Proof.
  unfold Path.join.
  destruct (lstrip_slash_cases d) as [->|(c & r & -> & Hc)].
  - destruct (_ || _); [exists ""|exists "/"]; split; auto.
  - destruct c as [[] [] [] [] [] [] [] []]; try done;
      (destruct (_ || _); [exists ""|exists "/"]; split; auto).
Qed.

Lemma join_lstrip_prefix (base d : string) :
  String.prefix base (Path.join base (Path.lstrip_slash d)) = true.
Proof.
  destruct (join_lstrip base d) as (sep & _ & ->). apply prefix_app.
Qed.

(** X7: [MountsManager.mount] puts on the stack a record whose mount point
    is the base directory followed by the directory stripped of its leading
    slashes (with a slash between unless the base ends with one): whatever
    the directory, also an absolute one, the mount point begins with the
    base directory; and the record is on the stack whether the mount
    succeeded or not. *)
Theorem manager_mounts_under_base
    (base device directory : string) (l : list Mount.t)
    (opts : list string) (make_rslave : bool) (w : world) :
  ∃ r mp w',
    MountsManager.mount device directory opts make_rslave
      (MountsManager.Build base l) w
    = (r,
       MountsManager.Build base
         (l ++ [Mount.Build device mp opts make_rslave])%list, w')
    ∧ String.prefix base mp = true
    ∧ (mp = base ++ Path.lstrip_slash directory
       ∨ mp = base ++ "/" ++ Path.lstrip_slash directory)
    ∧ (r = Ok tt → mtab w' = mp :: mtab w).
Proof.
  unfold MountsManager.mount, MountsManager.add, modify, get_self, mbind,
    M_bind. cbn [MountsManager.base_dir MountsManager.mounts].
  set (mp := Path.join base (Path.lstrip_slash directory)).
  set (m := Mount.Build device mp opts make_rslave).
  unfold MountsManager.set_mounts.
  cbn [MountsManager.base_dir MountsManager.mounts].
  destruct (Mount.mount m (MountsManager.Build base (l ++ [m])%list) w)
    as [[r s'] w'] eqn:Hm.
  assert (s' = MountsManager.Build base (l ++ [m])%list
          ∧ (r = Ok tt → mtab w' = mp :: mtab w)) as [-> Hmt].
  { revert Hm. unfold Mount.mount, mbind, M_bind, run. subst m.
    cbn [Mount.make_rslave Mount.opts Mount.device Mount.mount_point].
    cbn [feasible andb]. rewrite andb_true_r.
    destruct (match script w with [] => true | b :: _ => b end).
    - destruct make_rslave.
      + destruct (_ && _); intros [= <- <- <-]; (split; [done|]);
          intros ?; try done; by destruct w.
      + intros [= <- <- <-]. split; [done|]. intros _. by destruct w.
    - intros [= <- <- <-]. by split. }
  exists r, mp, w'. split; [done|]. split; [apply join_lstrip_prefix|].
  split; [|done].
  destruct (join_lstrip base directory) as (sep & [->| ->] & Hj);
    [left|right]; exact Hj.
Qed.

(** ** The base mounts of a session *)

(** X8: when no command fails and [/dev/shm] is no symbolic link,
    [mount_all] on an empty stack mounts, in this order, a tmpfs on [tmp],
    [/proc] on [proc], [/sys] on [sys] and [/dev] on [dev] of the chroot
    tree, the last three made recursive slaves; [umount_all] then unmounts
    [dev], [sys], [proc] and [tmp] in that order and gives back the object
    and the mount table as they were. *)
Theorem mount_all_fixed_order (self : Chroot.t) (w : world) :
  let under d := Path.join (MountsManager.base_dir (Chroot.mounts_mgr self)) d
  in
  let records :=
    [Mount.Build "geni_tmpfs" (under "tmp") ["--types"; "tmpfs"] false;
     Mount.Build "/proc" (under "proc") ["--types"; "proc"] true;
     Mount.Build "/sys" (under "sys") ["--rbind"] true;
     Mount.Build "/dev" (under "dev") ["--rbind"] true] in
  script w = [] →
  islink "/dev/shm" w = false →
  MountsManager.mounts (Chroot.mounts_mgr self) = [] →
  ∃ self1 w1 w2,
    Chroot.mount_all self w = (Ok tt, self1, w1)
    ∧ MountsManager.mounts (Chroot.mounts_mgr self1) = records
    ∧ mtab w1
      = ([under "dev"; under "sys"; under "proc"; under "tmp"] ++ mtab w)%list
    ∧ log w1 = (log w ++ concat (mount_commands <$> records))%list
    ∧ Chroot.umount_all self1 w1 = (Ok tt, self, w2)
    ∧ mtab w2 = mtab w
    ∧ log w2 = (log w1 ++ (umount_command <$> reverse records))%list.
Proof.
  intros under records Hsc Hlink Hempty.
  destruct self as [cd [base l] sm rc ms]. destruct w as [fl sl mt sc lg].
  simpl in Hsc, Hempty, Hlink, under, records. subst sc l.
  unfold Chroot.mount_all, Chroot.on_mounts_mgr, zoom, MountsManager.mount,
    MountsManager.add, modify, get_self, get_world, mbind, M_bind.
  cbn [Chroot.mounts_mgr MountsManager.base_dir MountsManager.mounts
       Path.lstrip_slash]. cbv beta iota.
  rewrite mount_quiet. cbv beta iota. unfold islink in Hlink |- *.
  cbn [symlinks] in Hlink |- *. rewrite Hlink. cbv beta iota.
  unfold MountsManager.set_mounts.
  repeat (cbn [Chroot.mounts_mgr MountsManager.base_dir MountsManager.mounts
               Chroot.chroot_dir Chroot.semaphore Chroot.resolv_conf
               Chroot.master app];
          rewrite mount_quiet; cbv beta iota).
  cbn [Chroot.mounts_mgr MountsManager.base_dir MountsManager.mounts
       Chroot.chroot_dir Chroot.semaphore Chroot.resolv_conf Chroot.master
       app].
  eexists _, _, _. split; [reflexivity|].
  split; [reflexivity|]. split; [reflexivity|].
  split; [cbn; by rewrite <- !app_assoc|].
  unfold Chroot.umount_all, Chroot.on_mounts_mgr, zoom,
    MountsManager.umount_all, get_self, mbind, M_bind.
  cbn [Chroot.mounts_mgr MountsManager.base_dir MountsManager.mounts].
  pose proof (umount_loop_quiet records base fl sl mt) as Hloop.
  subst records under. cbn [fmap list_fmap reverse rev_append length
                            Mount.mount_point app] in Hloop.
  unfold reverse in Hloop. cbn [rev_append app Mount.mount_point] in Hloop.
  rewrite Hloop. cbn [fst snd]. split; [reflexivity|].
  split; reflexivity.
Qed.

Lemma mount_all_fixed_order_witness :
  let self :=
    Chroot.__init__ (λ _, "2fd4e1c67a2d28fced849ee1bb76e7391b93eb12")
      "/work/gentoo" "/var/tmp/geni" in
  let w := World ∅ ∅ ["/dev"; "/proc"] [] [] in
  script w = [] ∧ islink "/dev/shm" w = false
  ∧ ∃ self1 w1 w2,
      Chroot.mount_all self w = (Ok tt, self1, w1)
      ∧ mtab w1 = ["/work/gentoo/dev"; "/work/gentoo/sys";
                   "/work/gentoo/proc"; "/work/gentoo/tmp"; "/dev"; "/proc"]
      ∧ Chroot.umount_all self1 w1 = (Ok tt, self, w2)
      ∧ mtab w2 = ["/dev"; "/proc"].
Proof.
  intros self w. split; [reflexivity|]. split; [vm_compute; reflexivity|].
  destruct (mount_all_fixed_order self w)
    as (s1 & w1 & w2 & H1 & _ & H2 & _ & H3 & H4 & _);
    [reflexivity|vm_compute; reflexivity|reflexivity|].
  exists s1, w1, w2. split; [exact H1|]. split; [exact H2|].
  split; [exact H3|exact H4].
Defined.

(** ** The file installer *)

Lemma run_rm_logged {S} (path : string) (s : S) (w : world) :
  ∃ r w',
    run (SudoRm path) s w = (r, s, w')
    ∧ log w' = (log w ++ [SudoRm path])%list
    ∧ mtab w' = mtab w
    ∧ (r = Ok tt ∧ files w' = delete path (files w)
       ∨ r = Raise (ProcessExecutionError (SudoRm path))
         ∧ files w' = files w).
Proof.
  unfold run. destruct (_ && _); eexists _, _; (split; [done|]);
    (split; [done|]); (split; [done|]); [left|right]; done.
Qed.

(** X9: [uninstall_all] removes the recorded files from the last installed
    to the first and stops at the first [rm] that fails; every path it has
    popped, also the one whose [rm] failed, is no longer recorded, and the
    paths not reached stay recorded in their order.  It never mounts or
    unmounts. *)
Theorem uninstall_all_reverse_order
    (source_base_dir target_base_dir : string) (l : list string)
    (w : world) :
  let self := FileInstaller.Build source_base_dir target_base_dir l in
  let rm rel := SudoRm (FileInstaller._make_target_path self rel) in
  ∃ k r w',
    FileInstaller.uninstall_all self w
    = (r,
       FileInstaller.Build source_base_dir target_base_dir
         (take (length l - k) l), w')
    ∧ (k ≤ length l)%nat
    ∧ log w' = (log w ++ (rm <$> take k (reverse l)))%list
    ∧ mtab w' = mtab w
    ∧ (r = Ok tt → k = length l)
    ∧ (∀ e, r = Raise e →
         ∃ rel, reverse l !! (k - 1)%nat = Some rel ∧ (0 < k)%nat
                ∧ e = ProcessExecutionError (rm rel))
    ∧ r ≠ Polling.
Proof.
  intros self rm. subst self. unfold FileInstaller.uninstall_all.
  unfold mbind at 1, M_bind at 1, get_self at 1. cbn [FileInstaller.files].
  unfold FileInstaller._make_target_path in rm.
  cbn [FileInstaller.target_base_dir] in rm.
  revert w. induction l as [|x l IH] using rev_ind; intros w.
  - exists O, (Ok tt), w. simpl. rewrite app_nil_r. by repeat split.
  - rewrite length_app, Nat.add_1_r. simpl.
    unfold mbind, M_bind, get_self, modify, FileInstaller._remove. simpl.
    rewrite pop_snoc. simpl.
    unfold mbind, M_bind, get_self, FileInstaller._make_target_path.
    simpl. fold (rm x).
    destruct (run_rm_logged
                (Path.join target_base_dir (Path.lstrip_slash x))
                (FileInstaller.set_files l
                   (FileInstaller.Build source_base_dir target_base_dir
                      (l ++ [x])%list)) w)
      as (r & w1 & Hrun & Hlog & Hmt & [[-> _]|[-> _]]);
      fold (rm x) in Hrun, Hlog; rewrite Hrun.
    + unfold FileInstaller.set_files. simpl.
      destruct (IH w1)
        as (k & r & w' & -> & Hk & Hlog' & Hmt' & Hok & Hraise & Hp).
      exists (S k), r, w'. rewrite reverse_snoc. simpl.
      rewrite take_app_le by lia.
      split; [done|]. split; [lia|]. split.
      { rewrite Hlog', Hlog. by rewrite <- app_assoc. }
      split; [congruence|]. split.
      { intros Hr. by rewrite (Hok Hr). }
      split; [|done].
      intros e He. destruct (Hraise e He) as (rel & Hrel & Hpos & ->).
      exists rel. rewrite Nat.sub_0_r.
      destruct k as [|k]; [lia|]. simpl in Hrel.
      rewrite Nat.sub_0_r in Hrel.
      split; [exact Hrel|]. split; [lia|done].
    + exists 1%nat, (Raise (ProcessExecutionError (rm x))), w1.
      unfold FileInstaller.set_files. simpl.
      rewrite reverse_snoc, Nat.sub_0_r, take_app_length. simpl.
      split; [done|]. split; [lia|]. split; [done|]. split; [done|].
      split; [done|]. split; [|done].
      intros e [= <-]. exists x. split; [done|]. split; [lia|done].
Qed.

(** ** The teardown of a master *)

Lemma umount_all_not_polling (mgr : MountsManager.t) (w : world) :
  (MountsManager.umount_all mgr w).1.1 ≠ Polling.
Proof.
  destruct mgr as [base l].
  unfold MountsManager.umount_all, mbind, M_bind, get_self. simpl.
  destruct (umount_loop_attempts l base w) as (k & r & w' & -> & H).
  simpl. apply H.
Qed.

Lemma uninstall_loop_not_polling (n : nat) (self : FileInstaller.t)
    (w : world) :
  (FileInstaller.uninstall_loop n self w).1.1 ≠ Polling.
Proof.
  revert self w. induction n as [|n IH]; intros self w; [done|].
  cbn [FileInstaller.uninstall_loop].
  unfold get_self, modify, FileInstaller._remove, get_self, mbind, M_bind,
    run.
  destruct (MountsManager.pop _) as [[rest rel_path]|]; [|done].
  destruct (_ && _); [apply IH|done].
Qed.

Lemma remove_not_polling (rc : FileTempInst.t) (w : world) :
  (FileTempInst.remove rc w).1.1 ≠ Polling.
Proof.
  destruct rc as [[src tgt l] fp].
  unfold FileTempInst.remove, FileTempInst.on_inst, zoom,
    FileInstaller.uninstall_all, get_self, mbind, M_bind.
  cbn [FileTempInst.inst FileInstaller.files].
  pose proof (uninstall_loop_not_polling (length l)
                (FileInstaller.Build src tgt l) w) as H.
  by destruct (FileInstaller.uninstall_loop _ _ _) as [[r s] w'].
Qed.

(** X10: the [clean_up] of a master whose [down()] leaves the counter at 0
    or below.  It runs [umount_all], then the removal of the resolver copy
    in the world [umount_all] left, whether [umount_all] raised or not;
    then [master] is reset; it raises the exception of [umount_all] if
    there is one, else that of the removal, and returns when both
    returned. *)
Theorem master_clean_up_aggregates
    (path : string) (self : Chroot.t) (w : world) (c : Z) (fuel : nat) :
  let sem := Chroot.semaphore self in
  let w0 :=
    set_files
      (FileSemaphore.get sem (FileSemaphore.down sem (files w)).2).2 w in
  sem = FileSemaphore.__init__ path →
  Chroot.master self = true →
  (FileSemaphore.get sem (files w)).1 = Ok c →
  c ≤ 1 →
  (0 < fuel)%nat →
  ∃ r1 mm w1 r2 rc w2,
    MountsManager.umount_all (Chroot.mounts_mgr self) w0 = (r1, mm, w1)
    ∧ FileTempInst.remove (Chroot.resolv_conf self) w1 = (r2, rc, w2)
    ∧ Chroot.clean_up fuel self w
      = (match r1, r2 with
         | Raise e, _ => Raise e
         | _, Raise e => Raise e
         | _, _ => Ok tt
         end,
         Chroot.Build (Chroot.chroot_dir self) mm sem rc false, w2)
    ∧ r1 ≠ Polling ∧ r2 ≠ Polling.
Proof.
  intros sem w0 Hsem Hmaster Hget Hc Hfuel. subst sem.
  destruct fuel as [|fuel]; [lia|].
  destruct self as [cd mgr sm rc ms].
  cbn [Chroot.semaphore Chroot.master Chroot.mounts_mgr Chroot.resolv_conf
       Chroot.chroot_dir] in *.
  subst sm ms. rewrite get_eq in Hget. cbn [fst] in Hget.
  pose proof (down_ok path _ _ Hget) as Hdown. cbv zeta in Hdown.
  pose proof (read_counter_updated path (c - 1) (files w)) as Hread.
  destruct (MountsManager.umount_all mgr w0) as [[r1 mm] w1] eqn:H1.
  destruct (FileTempInst.remove rc w1) as [[r2 rc'] w2] eqn:H2.
  exists r1, mm, w1, r2, rc', w2. split; [done|]. split; [done|].
  pose proof (umount_all_not_polling mgr w0) as Hp1. rewrite H1 in Hp1.
  pose proof (remove_not_polling rc w1) as Hp2. rewrite H2 in Hp2.
  split; [|by split].
  unfold Chroot.clean_up, Chroot.semaphore_down, FileSemaphore.call,
    get_self, mbind, M_bind. cbn [Chroot.semaphore Chroot.master].
  rewrite Hdown. cbv beta iota. cbn [Chroot.master].
  cbn [Chroot.wait_drained].
  unfold Chroot.semaphore_get, FileSemaphore.call, get_self, mbind, M_bind.
  cbn [Chroot.semaphore].
  assert (∀ f w, files (set_files f w) = f) as Hfs by done.
  rewrite Hfs, get_eq, Hread. cbv beta iota.
  destruct (Z.ltb_spec 0 (c - 1)) as [|_]; [lia|].
  unfold mret, M_ret. cbv beta iota.
  unfold ExceptionEater.eat, Chroot.umount_all, Chroot.on_mounts_mgr,
    Chroot.on_resolv_conf, zoom. cbn [Chroot.mounts_mgr Chroot.resolv_conf].
  replace (set_files _ (set_files _ w)) with w0.
  2: { subst w0. rewrite Hdown, get_eq. by destruct w. }
  rewrite H1. cbv beta iota.
  destruct r1 as [[]|e1|]; [| |done]; cbv beta iota;
    cbn [Chroot.mounts_mgr Chroot.resolv_conf Chroot.chroot_dir
         Chroot.semaphore Chroot.master];
    rewrite H2; cbv beta iota;
    (destruct r2 as [[]|e2|]; [| |done]); cbv beta iota;
    unfold modify, ExceptionEater.raise_first_if_any, raise, mret, M_ret,
      Chroot.set_master;
    cbn [Chroot.mounts_mgr Chroot.resolv_conf Chroot.chroot_dir
         Chroot.semaphore Chroot.master app];
    reflexivity.
Qed.

Lemma master_clean_up_aggregates_witness :
  let self :=
    Chroot.Build "/c"
      (MountsManager.Build "/c"
         [Mount.Build "geni_tmpfs" "/c/tmp" ["--types"; "tmpfs"] false])
      (FileSemaphore.__init__ "/w/cnt")
      (FileTempInst.Build (FileInstaller.Build "/" "/c" ["/etc/resolv.conf"])
         "/etc/resolv.conf")
      true in
  let w :=
    World {["/w/cnt" := "1"; "/c/etc/resolv.conf" := "nameserver 10.0.0.1"]}
      ∅ ["/c/tmp"] [false] [] in
  (FileSemaphore.get (Chroot.semaphore self) (files w)).1 = Ok 1
  ∧ ∃ self' w',
      Chroot.clean_up 1 self w
      = (Raise (ProcessExecutionError (SudoUmount false "/c/tmp")),
         self', w')
      ∧ log w' = [SudoUmount false "/c/tmp"; SudoRm "/c/etc/resolv.conf"]
      ∧ files w' = ∅ ∧ Chroot.master self' = false.
Proof.
  intros self w. split; [vm_compute; reflexivity|].
  destruct (master_clean_up_aggregates "/w/cnt" self w 1 1)
    as (r1 & mm & w1 & r2 & rc & w2 & H1 & H2 & H & _);
    [reflexivity|reflexivity|vm_compute; reflexivity|lia|lia|].
  eexists _, _. split.
  - vm_compute. reflexivity.
  - by vm_compute.
Defined.

(** ** Installing, checking and removing one file *)

(** X11: [ensure_is_copied] returns only when the source and the target
    both exist with the same text, and then exactly when the [diff] command
    is not made to fail from outside; it changes neither the installer nor
    the files nor the mounts. *)
Theorem ensure_is_copied_detects_drift
    (self : FileInstaller.t) (rel_path : string) (w : world) :
  let src := FileInstaller._make_source_path self rel_path in
  let tgt := FileInstaller._make_target_path self rel_path in
  ∃ r w',
    FileInstaller.ensure_is_copied rel_path self w = (r, self, w')
    ∧ files w' = files w ∧ mtab w' = mtab w
    ∧ log w' = (log w ++ [Diff src tgt])%list
    ∧ (r = Ok tt
       ↔ match script w with b :: _ => b | [] => true end = true
         ∧ ∃ text, files w !! src = Some text ∧ files w !! tgt = Some text)
    ∧ (r = Ok tt ∨ r = Raise (ProcessExecutionError (Diff src tgt))).
Proof.
  intros src tgt.
  unfold FileInstaller.ensure_is_copied, get_self, mbind, M_bind, run.
  fold src tgt. cbn [feasible]. unfold set_log, set_script.
  cbn [files script log symlinks mtab].
  destruct (match script w with [] => true | b :: _ => b end);
    [|eexists _, _; repeat split; try done;
      [by intros [? _]|by right]].
  destruct (files w !! src) as [x|] eqn:Hx;
    [|eexists _, _; repeat split; try done;
      [by intros [_ (? & ? & _)]|by right]].
  destruct (files w !! tgt) as [y|] eqn:Hy;
    [|eexists _, _; repeat split; try done;
      [by intros [_ (? & _ & ?)]|by right]].
  destruct (String.eqb_spec x y) as [->|Hne]; simpl.
  - eexists _, _. repeat split; try done; [by exists y|by left].
  - eexists _, _. repeat split; try done; [|by right].
    intros [_ (t & [= ->] & [= ->])]. done.
Qed.

(** X12: when no command fails and the host file exists and is not the
    target itself, [copy], [ensure_is_copied] and [remove] of an installer
    that has recorded nothing all return; the check finds no drift; and
    after [remove] the installer is as it was and the target does not
    exist, whatever was there before the copy. *)
Theorem copy_check_remove (self : FileTempInst.t) (w : world) (text : string) :
  let inst := FileTempInst.inst self in
  let rel := FileTempInst.file_path self in
  let src := FileInstaller._make_source_path inst rel in
  let tgt := FileInstaller._make_target_path inst rel in
  script w = [] →
  files w !! src = Some text →
  src ≠ tgt →
  FileInstaller.files inst = [] →
  ∃ self1 w1 w2 w3,
    FileTempInst.copy self w = (Ok tt, self1, w1)
    ∧ files w1 !! tgt = Some text
    ∧ FileTempInst.ensure_is_copied self1 w1 = (Ok tt, self1, w2)
    ∧ FileTempInst.remove self1 w2 = (Ok tt, self, w3)
    ∧ files w3 = delete tgt (files w)
    ∧ log w3 = (log w ++ [SudoCp src tgt; Diff src tgt; SudoRm tgt])%list.
Proof.
  intros inst rel src tgt Hsc Hsrc Hne Hfiles.
  destruct self as [[sb tb l] fp]. destruct w as [fl sl mt sc lg].
  subst inst rel.
  cbn [FileTempInst.inst FileTempInst.file_path FileInstaller.files
       script files] in *.
  subst l sc.
  assert (String.eqb src tgt = false) as Heqb by (by apply String.eqb_neq).
  set (self1 := FileTempInst.Build (FileInstaller.Build sb tb [fp]) fp).
  set (w1 := World (<[tgt := text]> fl) sl mt [] (lg ++ [SudoCp src tgt])%list).
  set (w2 := World (<[tgt := text]> fl) sl mt []
               ((lg ++ [SudoCp src tgt]) ++ [Diff src tgt])%list).
  exists self1, w1, w2,
    (World (delete tgt (<[tgt := text]> fl)) sl mt []
       (((lg ++ [SudoCp src tgt]) ++ [Diff src tgt]) ++ [SudoRm tgt])%list).
  split.
  { unfold FileTempInst.copy, FileTempInst.on_inst, zoom, FileInstaller.copy,
      modify, get_self, mbind, M_bind, mret, M_ret.
    cbn [FileTempInst.inst FileTempInst.file_path]. fold src tgt.
    rewrite run_quiet.
    - world_simpl. by rewrite Hsrc.
    - cbn [feasible]. unfold exists_file. cbn [files].
      by rewrite Hsrc, Heqb. }
  split; [apply lookup_insert_eq|]. split.
  { unfold FileTempInst.ensure_is_copied, FileTempInst.on_inst, zoom,
      FileInstaller.ensure_is_copied, get_self, mbind, M_bind.
    cbn [self1 FileTempInst.inst FileTempInst.file_path].
    change (FileInstaller._make_source_path _ fp) with src.
    change (FileInstaller._make_target_path _ fp) with tgt.
    subst w1. rewrite run_quiet; [done|].
    cbn [feasible files]. rewrite lookup_insert_ne by done.
    rewrite Hsrc, lookup_insert_eq. apply String.eqb_refl. }
  split.
  { unfold FileTempInst.remove, FileTempInst.on_inst, zoom,
      FileInstaller.uninstall_all, get_self.
    unfold mbind at 1, M_bind at 1.
    cbn [self1 FileTempInst.inst FileTempInst.file_path FileInstaller.files
         length FileInstaller.uninstall_loop].
    unfold FileInstaller._remove, modify, get_self, mbind, M_bind, mret,
      M_ret, MountsManager.pop, reverse.
    cbn [rev_append FileInstaller.files]. cbv beta iota.
    unfold FileInstaller.set_files.
    cbn [FileInstaller.source_base_dir FileInstaller.target_base_dir].
    change (FileInstaller._make_target_path _ fp) with tgt.
    subst w2. rewrite run_quiet; [done|].
    cbn [feasible]. unfold exists_file. cbn [files].
    by rewrite lookup_insert_eq. }
  split; [apply delete_insert_eq|]. cbn [log].
  by rewrite <- !app_assoc.
Qed.

Lemma copy_check_remove_witness :
  let self := FileTempInst.__init__ "/work/gentoo" "/etc/resolv.conf" in
  let w :=
    World {["/etc/resolv.conf" := "nameserver 10.0.0.1";
            "/work/gentoo/etc/resolv.conf" := "nameserver 192.168.0.1"]}
      ∅ [] [] [] in
  script w = []
  ∧ files w !! "/etc/resolv.conf" = Some "nameserver 10.0.0.1"
  ∧ ∃ self1 w1 w2 w3,
      FileTempInst.copy self w = (Ok tt, self1, w1)
      ∧ FileTempInst.ensure_is_copied self1 w1 = (Ok tt, self1, w2)
      ∧ FileTempInst.remove self1 w2 = (Ok tt, self, w3)
      ∧ files w3 !! "/work/gentoo/etc/resolv.conf" = None.
Proof.
  intros self w. split; [reflexivity|]. split; [vm_compute; reflexivity|].
  destruct (copy_check_remove self w "nameserver 10.0.0.1")
    as (s1 & w1 & w2 & w3 & H1 & _ & H2 & H3 & H4 & _);
    [reflexivity|vm_compute; reflexivity|by vm_compute|reflexivity|].
  exists s1, w1, w2, w3. split; [exact H1|]. split; [exact H2|].
  split; [exact H3|]. rewrite H4. apply lookup_delete_eq.
Defined.

(** X13: [uninstall] removes the file before it looks at its records.
    When no command fails and the target exists, the target is deleted;
    then the first occurrence of the path is dropped from the records, and
    for a path that was never recorded [ValueError] is raised, after the
    file has been deleted. *)
Theorem uninstall_removes_then_records
    (self : FileInstaller.t) (rel_path text : string) (w : world) :
  let tgt := FileInstaller._make_target_path self rel_path in
  script w = [] →
  files w !! tgt = Some text →
  ∃ w',
    FileInstaller.uninstall rel_path self w
    = (match FileInstaller.list_remove rel_path (FileInstaller.files self)
       with
       | Some _ => Ok tt
       | None => Raise ValueError
       end,
       match FileInstaller.list_remove rel_path (FileInstaller.files self)
       with
       | Some rest => FileInstaller.set_files rest self
       | None => self
       end, w')
    ∧ files w' = delete tgt (files w)
    ∧ log w' = (log w ++ [SudoRm tgt])%list.
Proof.
  intros tgt Hsc Htgt. destruct w as [fl sl mt sc lg].
  cbn [script files] in *. subst sc.
  unfold FileInstaller.uninstall, FileInstaller._remove, get_self, mbind,
    M_bind. fold tgt.
  rewrite run_quiet.
  2: { cbn [feasible]. unfold exists_file. cbn [files]. by rewrite Htgt. }
  world_simpl. cbv beta iota.
  destruct (FileInstaller.list_remove _ _); eexists; by repeat split.
Qed.

Lemma uninstall_removes_then_records_witness :
  let self := FileInstaller.Build "/" "/c" ["/etc/hosts"] in
  let w := World {["/c/etc/resolv.conf" := "nameserver 10.0.0.1"]} ∅ [] [] []
  in
  script w = []
  ∧ files w !! "/c/etc/resolv.conf" = Some "nameserver 10.0.0.1"
  ∧ ∃ w',
      FileInstaller.uninstall "/etc/resolv.conf" self w
      = (Raise ValueError, self, w')
      ∧ files w' = delete "/c/etc/resolv.conf" (files w)
      ∧ log w' = [SudoRm "/c/etc/resolv.conf"].
Proof.
  intros self w. split; [reflexivity|]. split; [vm_compute; reflexivity|].
  apply (uninstall_removes_then_records self "/etc/resolv.conf"
           "nameserver 10.0.0.1" w);
    [reflexivity|vm_compute; reflexivity].
Defined.

(** ** The files of two sessions *)

Lemma chars_app (a b : string) :
  list_ascii_of_string (a ++ b)
  = (list_ascii_of_string a ++ list_ascii_of_string b)%list.
Proof. induction a as [|c a IH]; [done|]. simpl. by rewrite IH. Qed.

Lemma chars_length (a : string) :
  length (list_ascii_of_string a) = String.length a.
Proof. induction a as [|c a IH]; [done|]. simpl. by rewrite IH. Qed.

Lemma chars_inj (a b : string) :
  list_ascii_of_string a = list_ascii_of_string b → a = b.
Proof.
  intros H. rewrite <- (string_of_list_ascii_of_string a),
    <- (string_of_list_ascii_of_string b). by rewrite H.
Qed.

(** Two texts with tails of the same length are equal only part by part. *)
Lemma string_app_inj_2 (a1 b1 a2 b2 : string) :
  String.length b1 = String.length b2 →
  a1 ++ b1 = a2 ++ b2 → a1 = a2 ∧ b1 = b2.
Proof.
  intros Hlen Heq. apply (f_equal list_ascii_of_string) in Heq.
  rewrite !chars_app in Heq.
  apply app_inj_2 in Heq as [H1 H2]; [|by rewrite !chars_length].
  split; by apply chars_inj.
Qed.

Lemma string_app_assoc (a b c : string) : (a ++ b) ++ c = a ++ b ++ c.
Proof.
  induction a as [|x a IH]; [done|].
  change (String x ((a ++ b) ++ c) = String x (a ++ b ++ c)).
  by rewrite IH.
Qed.

Lemma join_name_inj (work n1 n2 : string) :
  Path.join work (String "." n1) = Path.join work (String "." n2) → n1 = n2.
Proof.
  unfold Path.join. simpl.
  destruct (_ || _); intros H.
  - by apply String.app_inj in H as [= ->].
  - apply String.app_inj in H. by injection H.
Qed.

(** X14: two chroot directories whose path hashes differ (and have the same
    length, as hexadecimal digests have) get, in the same working
    directory, different counter files and different lock files, and the
    lock file of one is not the counter file of the other. *)
Theorem sessions_use_different_files
    (hash_path : string → string) (work_dir dir1 dir2 : string) :
  let sem1 := Chroot.semaphore (Chroot.__init__ hash_path dir1 work_dir) in
  let sem2 := Chroot.semaphore (Chroot.__init__ hash_path dir2 work_dir) in
  String.length (hash_path dir1) = String.length (hash_path dir2) →
  hash_path dir1 ≠ hash_path dir2 →
  FileSemaphore.sem_file_path sem1 ≠ FileSemaphore.sem_file_path sem2
  ∧ FileSemaphore.lock_file_path sem1 ≠ FileSemaphore.lock_file_path sem2
  ∧ FileSemaphore.lock_file_path sem1 ≠ FileSemaphore.sem_file_path sem2.
Proof.
  intros sem1 sem2 Hlen Hne. subst sem1 sem2.
  unfold Chroot.__init__, FileSemaphore.__init__.
  cbn [Chroot.semaphore FileSemaphore.sem_file_path
       FileSemaphore.lock_file_path].
  set (h1 := hash_path dir1) in *. set (h2 := hash_path dir2) in *.
  set (b1 := Path.basename dir1). set (b2 := Path.basename dir2).
  assert (Path.join work_dir ("._geni_chroot_" ++ b1 ++ "_" ++ h1 ++ "_cnt")
          ≠ Path.join work_dir
              ("._geni_chroot_" ++ b2 ++ "_" ++ h2 ++ "_cnt")) as Hsem.
  { intros H. apply join_name_inj in H. injection H as H.
    rewrite <- !(string_app_assoc _ "_" (_ ++ "_cnt")) in H.
    apply string_app_inj_2 in H as [_ H].
    - apply string_app_inj_2 in H as [H _]; done.
    - rewrite <- !chars_length, !chars_app, !length_app, !chars_length.
      by rewrite Hlen. }
  split; [exact Hsem|]. split.
  - intros H. apply string_app_inj_2 in H as [H _]; done.
  - intros H.
    set (p1 := Path.join work_dir _) in H.
    destruct (join_lstrip work_dir
                ("._geni_chroot_" ++ b2 ++ "_" ++ h2 ++ "_cnt"))
      as (sep & _ & Hj).
    change (Path.lstrip_slash ("._geni_chroot_" ++ b2 ++ "_" ++ h2 ++ "_cnt"))
      with ("._geni_chroot_" ++ b2 ++ "_" ++ h2 ++ "_cnt") in Hj.
    rewrite Hj in H.
    change (p1 ++ ".lock") with (p1 ++ ".loc" ++ "k") in H.
    change ("._geni_chroot_" ++ b2 ++ "_" ++ h2 ++ "_cnt")
      with ("._geni_chroot_" ++ b2 ++ "_" ++ h2 ++ "_cn" ++ "t") in H.
    rewrite <- !string_app_assoc in H.
    apply string_app_inj_2 in H as [_ H]; done.
Qed.

Lemma sessions_use_different_files_witness :
  let hash_path (d : string) : string :=
    if String.eqb d "/a/gentoo" then "2fd4" else "9c1e" in
  let sem1 :=
    Chroot.semaphore (Chroot.__init__ hash_path "/a/gentoo" "/w") in
  let sem2 :=
    Chroot.semaphore (Chroot.__init__ hash_path "/b/gentoo" "/w") in
  String.length (hash_path "/a/gentoo") = String.length (hash_path "/b/gentoo")
  ∧ String.eqb (FileSemaphore.sem_file_path sem1)
      (FileSemaphore.sem_file_path sem2) = false.
Proof.
  intros hash_path sem1 sem2. split; [reflexivity|].
  apply String.eqb_neq.
  apply (sessions_use_different_files hash_path "/w" "/a/gentoo"
           "/b/gentoo"); [reflexivity|done].
Defined.

(** ** [drop_prefix], [join_url] and [make_proxies_dict] *)

Lemma slice_from_app (p s : string) :
  slice_from (String.length p) (p ++ s) = s.
Proof. induction p as [|c p IH]; [by destruct s|exact IH]. Qed.

Lemma prefix_split (p s : string) :
  String.prefix p s = true → ∃ r, s = p ++ r.
Proof.
  revert s. induction p as [|c p IH]; intros s; [by exists s|].
  destruct s as [|d s]; [done|]. simpl.
  destruct (ascii_dec c d) as [->|]; [|done].
  intros [r ->]%IH. by exists r.
Qed.

(** X15: [drop_prefix] takes the prefix off a text that begins with it and
    leaves any other text as it is: the prefix put back in front of the
    result gives the text again, and a text made of the prefix and a rest
    gives the rest. *)
Theorem drop_prefix_correct (prefix rest string_ : string) :
  drop_prefix prefix (prefix ++ rest) = rest
  ∧ (if String.prefix prefix string_
     then prefix ++ drop_prefix prefix string_ = string_
     else drop_prefix prefix string_ = string_).
Proof.
  unfold drop_prefix. split.
  - by rewrite prefix_app, slice_from_app.
  - destruct (String.prefix prefix string_) eqn:Hp; [|done].
    apply prefix_split in Hp as [r ->]. by rewrite slice_from_app.
Qed.

Lemma rstrip_slash_snoc (b : string) :
  rstrip_slash (b ++ "/") = rstrip_slash b.
Proof.
  induction b as [|c b IH]; [done|].
  change (rstrip_slash (String c (b ++ "/")) = rstrip_slash (String c b)).
  cbn [rstrip_slash]. by rewrite IH.
Qed.

Lemma rstrip_slash_no_end (b : string) :
  Path.ends_with_slash (rstrip_slash b) = false.
Proof.
  induction b as [|c b IH]; [done|]. cbn [rstrip_slash].
  destruct (rstrip_slash b) as [|d r] eqn:Hr.
  - destruct (Ascii.eqb c "/") eqn:Hc; [done|]. simpl. exact Hc.
  - exact IH.
Qed.

Lemma lstrip_slash_no_start (p : string) :
  String.prefix "/" (Path.lstrip_slash p) = false.
Proof.
  destruct (lstrip_slash_cases p) as [->|(c & r & -> & Hc)]; [done|].
  cbn [String.prefix]. by destruct (ascii_dec "/" c) as [<-|].
Qed.

(** X16: [join_url] does not depend on the slashes at the end of the base
    or at the start of the path, and puts exactly one slash between the
    two: what comes before it does not end with a slash and what comes
    after does not begin with one. *)
Theorem join_url_one_slash (base_url path : string) :
  join_url (base_url ++ "/") path = join_url base_url path
  ∧ join_url base_url (String "/" path) = join_url base_url path
  ∧ ∃ before after,
      join_url base_url path = before ++ "/" ++ after
      ∧ Path.ends_with_slash before = false
      ∧ String.prefix "/" after = false
      ∧ rstrip_slash before = rstrip_slash base_url
      ∧ Path.lstrip_slash after = Path.lstrip_slash path.
Proof.
  unfold join_url. split; [by rewrite rstrip_slash_snoc|].
  split; [done|].
  exists (rstrip_slash base_url), (Path.lstrip_slash path).
  split; [done|]. split; [apply rstrip_slash_no_end|].
  split; [apply lstrip_slash_no_start|]. split.
  - induction base_url as [|c b IH]; [done|]. cbn [rstrip_slash].
    destruct (rstrip_slash b) as [|d r] eqn:Hr.
    + destruct (Ascii.eqb c "/") eqn:Hc; [done|].
      cbn [rstrip_slash]. by rewrite Hc.
    + cbn [rstrip_slash] in IH |- *. by rewrite IH.
  - destruct (lstrip_slash_cases path) as [->|(c & r & -> & Hc)]; [done|].
    destruct c as [[] [] [] [] [] [] [] []]; done.
Qed.

(** X17: [make_proxies_dict] forwards [http_proxy] and [https_proxy] with
    the values they have in the environment, leaves out the one that is
    not set, and forwards no other variable. *)
Theorem make_proxies_dict_lookup (env : gmap string string) (var : string) :
  make_proxies_dict env !! var
  = if String.eqb var "http_proxy" || String.eqb var "https_proxy"
    then env !! var else None.
Proof.
  unfold make_proxies_dict. simpl.
  destruct (String.eqb_spec var "http_proxy") as [->|H1];
    [|destruct (String.eqb_spec var "https_proxy") as [->|H2]]; simpl.
  - destruct (env !! "http_proxy") as [v|] eqn:Hv;
      destruct (env !! "https_proxy") as [v'|];
      rewrite ?lookup_insert_ne by done;
      rewrite ?lookup_insert_eq, ?lookup_empty; done.
  - destruct (env !! "http_proxy") as [v|];
      destruct (env !! "https_proxy") as [v'|] eqn:Hv;
      rewrite ?lookup_insert_eq, ?lookup_insert_ne by done;
      rewrite ?lookup_empty; done.
  - destruct (env !! "http_proxy") as [v|];
      destruct (env !! "https_proxy") as [v'|];
      rewrite ?lookup_insert_ne by done; apply lookup_empty.
Qed.

(** ** One session with no peer *)

Lemma join_suffix (a b : string) : ∃ pre, Path.join a b = pre ++ b.
Proof.
  unfold Path.join. destruct b as [|c b].
  - destruct (_ || _); [by exists a|].
    exists (a ++ "/"). by rewrite string_app_assoc.
  - destruct c as [[] [] [] [] [] [] [] []];
      first [by exists ""
            |destruct (_ || _);
             [by exists a
             |exists (a ++ "/"); by rewrite string_app_assoc]].
Qed.

Lemma last_join (a b : string) (c : ascii) :
  last (list_ascii_of_string b) = Some c →
  last (list_ascii_of_string (Path.join a b)) = Some c.
Proof.
  intros H. destruct (join_suffix a b) as [pre ->].
  by rewrite chars_app, last_app, H.
Qed.

Lemma last_ne (a b : string) :
  last (list_ascii_of_string a) ≠ last (list_ascii_of_string b) → a ≠ b.
Proof. by intros H ->. Qed.

Lemma counter_path_last (work_dir name hash : string) :
  last (list_ascii_of_string
          (Path.join work_dir
             ("._geni_chroot_" ++ name ++ "_" ++ hash ++ "_cnt")))
  = Some "t"%char.
Proof.
  apply last_join. by rewrite !chars_app, !last_app.
Qed.

Lemma copy_not_host_file (chroot_dir : string) :
  chroot_dir ≠ "/" →
  Path.join chroot_dir "etc/resolv.conf" ≠ "/etc/resolv.conf".
Proof.
  intros Hne. destruct chroot_dir as [|c r]; [done|].
  unfold Path.join. cbv iota beta.
  change "/etc/resolv.conf" with ("/" ++ "etc/resolv.conf").
  destruct (_ || _); intros H.
  - by apply string_app_inj_2 in H as [H _].
  - rewrite <- string_app_assoc in H.
    apply string_app_inj_2 in H as [H _]; [|done].
    injection H as _ H. by destruct r.
Qed.

Lemma mount_all_quiet (self : Chroot.t) fl sl mt lg :
  let base := MountsManager.base_dir (Chroot.mounts_mgr self) in
  bool_decide ("/dev/shm" ∈ sl) = false →
  MountsManager.mounts (Chroot.mounts_mgr self) = [] →
  Chroot.mount_all self (World fl sl mt [] lg)
  = (Ok tt,
     Chroot.Build (Chroot.chroot_dir self)
       (MountsManager.Build base (base_mounts base)) (Chroot.semaphore self)
       (Chroot.resolv_conf self) (Chroot.master self),
     World fl sl (reverse (Mount.mount_point <$> base_mounts base) ++ mt)%list
       [] (lg ++ concat (mount_commands <$> base_mounts base))%list).
Proof.
  intros base Hlink Hempty. subst base.
  destruct self as [cd [base l] sm rc ms]. simpl in Hempty. subst l.
  unfold Chroot.mount_all, Chroot.on_mounts_mgr, zoom, MountsManager.mount,
    MountsManager.add, modify, get_self, get_world, mbind, M_bind.
  cbn [Chroot.mounts_mgr MountsManager.base_dir MountsManager.mounts
       Path.lstrip_slash]. cbv beta iota.
  rewrite mount_quiet. cbv beta iota. unfold islink.
  cbn [symlinks]. rewrite Hlink. cbv beta iota.
  unfold MountsManager.set_mounts.
  repeat (cbn [Chroot.mounts_mgr MountsManager.base_dir MountsManager.mounts
               Chroot.chroot_dir Chroot.semaphore Chroot.resolv_conf
               Chroot.master app];
          rewrite mount_quiet; cbv beta iota).
  cbn [Chroot.mounts_mgr MountsManager.base_dir MountsManager.mounts
       Chroot.chroot_dir Chroot.semaphore Chroot.resolv_conf Chroot.master
       app].
  unfold base_mounts. cbn. by rewrite <- !app_assoc.
Qed.

Lemma ensure_all_mounted_quiet (self : Chroot.t) fl sl mt lg :
  Forall (λ mp, mp ∈ mt) ["/tmp"; "/proc"; "/sys"; "/dev"] →
  Chroot.ensure_all_mounted self (World fl sl mt [] lg)
  = (Ok tt, self,
     World fl sl mt []
       (lg ++ [Mountpoint "/tmp"; Mountpoint "/proc"; Mountpoint "/sys";
               Mountpoint "/dev"])%list).
Proof.
  intros H. apply Forall_cons in H as [H1 H].
  apply Forall_cons in H as [H2 H]. apply Forall_cons in H as [H3 H].
  apply Forall_cons in H as [H4 _].
  unfold Chroot.ensure_all_mounted, mbind, M_bind.
  repeat (rewrite run_quiet
            by (cbn [feasible]; unfold mounted; cbn [mtab];
                by apply bool_decide_eq_true);
          world_simpl).
  by rewrite <- !app_assoc.
Qed.

(** X18: a session with no peer, on a host whose [/tmp], [/proc], [/sys]
    and [/dev] are mount points.  When no command fails, there is no
    counter file, the host has [/etc/resolv.conf], [/dev/shm] is no
    symbolic link and the chroot directory is not [/]: [__enter__] returns
    an executor for the chroot directory, with the entrant as master, the
    counter file holding 1, the resolver file copied into the chroot tree
    and the four mounts made; [__exit__] then returns [False], the object is
    as it was constructed, the mount table is as before, and the files are
    as before but for the resolver copy and the lock file, which do not
    exist, whatever was at their paths before the session. *)
Theorem lone_session_round_trip
    (hash_path : string → string) (chroot_dir work_dir text : string)
    (w : world) (fuel : nat) :
  let self := Chroot.__init__ hash_path chroot_dir work_dir in
  let cnt := FileSemaphore.sem_file_path (Chroot.semaphore self) in
  let lock := FileSemaphore.lock_file_path (Chroot.semaphore self) in
  let copy := Path.join chroot_dir "etc/resolv.conf" in
  let under d := Path.join chroot_dir d in
  script w = [] →
  files w !! cnt = None →
  files w !! "/etc/resolv.conf" = Some text →
  chroot_dir ≠ "/" →
  islink "/dev/shm" w = false →
  Forall (λ mp, mounted mp w = true) ["/tmp"; "/proc"; "/sys"; "/dev"] →
  (0 < fuel)%nat →
  ∃ self1 w1 w2,
    Chroot.__enter__ fuel self w
    = (Ok (ChrootExec.Build chroot_dir), self1, w1)
    ∧ Chroot.master self1 = true
    ∧ files w1 = <[copy := text]> (<[cnt := "1"]> (delete lock (files w)))
    ∧ mtab w1
      = ([under "dev"; under "sys"; under "proc"; under "tmp"] ++ mtab w)%list
    ∧ Chroot.__exit__ fuel self1 w1 = (Ok false, self, w2)
    ∧ files w2 = delete copy (delete lock (files w))
    ∧ mtab w2 = mtab w.
Proof.
  intros self cnt lock copy under Hsc Hcnt Hsrc Hroot Hlink Hhost Hfuel.
  destruct w as [fl sl mt sc lg]. cbn [script files] in Hsc, Hcnt, Hsrc.
  subst sc. destruct fuel as [|fuel]; [lia|].
  assert (copy ≠ "/etc/resolv.conf") as Hcopy
    by by apply copy_not_host_file.
  assert (copy ≠ cnt) as Hcc.
  { apply last_ne. subst copy cnt self. unfold Chroot.__init__.
    cbn [Chroot.semaphore FileSemaphore.__init__
         FileSemaphore.sem_file_path].
    rewrite counter_path_last, (last_join _ _ "f"%char); done. }
  assert (copy ≠ lock) as Hcl.
  { apply last_ne. subst copy lock self. unfold Chroot.__init__.
    cbn [Chroot.semaphore FileSemaphore.__init__
         FileSemaphore.lock_file_path].
    rewrite chars_app, last_app, (last_join _ _ "f"%char); done. }
  assert ("/etc/resolv.conf" ≠ lock) as Hsl.
  { apply last_ne. subst lock self. unfold Chroot.__init__.
    cbn [Chroot.semaphore FileSemaphore.__init__
         FileSemaphore.lock_file_path].
    by rewrite chars_app, last_app. }
  assert ("/etc/resolv.conf" ≠ cnt) as Hsn by (intros <-; congruence).
  unfold islink in Hlink. cbn [symlinks] in Hlink.
  assert (FileSemaphore.read_counter (FileSemaphore.__init__ cnt) fl = Ok 0)
    as Hzero.
  { unfold FileSemaphore.read_counter.
    cbn [FileSemaphore.__init__ FileSemaphore.sem_file_path].
    by rewrite Hcnt. }
  subst self. unfold Chroot.__init__ in *.
  cbn [Chroot.semaphore FileSemaphore.__init__ FileSemaphore.sem_file_path
       FileSemaphore.lock_file_path] in cnt, lock.
  fold cnt. fold (FileSemaphore.__init__ cnt).
  unfold Chroot.__enter__, try_except_reraise, Chroot.prepare,
    Chroot.semaphore_up, FileSemaphore.call, get_self.
  unfold mbind, M_bind.
  cbn [Chroot.semaphore files].
  rewrite (up_ok cnt fl 0 Hzero).
  change (0 + 1 =? 1) with true. cbv beta iota.
  unfold updated. change (0 + 1 =? 0) with false. cbv iota.
  change (Py.str (0 + 1)) with "1".
  cbn [FileSemaphore.__init__ FileSemaphore.sem_file_path
       FileSemaphore.lock_file_path].
  change (cnt ++ ".lock") with lock.
  set (f1 := <[cnt := "1"]> (delete lock fl)).
  assert (f1 !! "/etc/resolv.conf" = Some text) as Hf1.
  { subst f1. by rewrite lookup_insert_ne, lookup_delete_ne. }
  unfold modify, Chroot.set_master, Chroot.on_resolv_conf, zoom,
    FileTempInst.copy, FileTempInst.on_inst, zoom, FileInstaller.copy,
    get_self, modify, mbind, M_bind, FileTempInst.__init__,
    FileInstaller.__init__, FileInstaller._make_source_path,
    FileInstaller._make_target_path, FileInstaller.set_files.
  cbn [Chroot.chroot_dir Chroot.mounts_mgr Chroot.semaphore
       Chroot.resolv_conf Chroot.master FileTempInst.inst
       FileTempInst.file_path FileInstaller.source_base_dir
       FileInstaller.target_base_dir FileInstaller.files].
  change (Path.lstrip_slash "/etc/resolv.conf") with "etc/resolv.conf".
  change (Path.join "/" "etc/resolv.conf") with "/etc/resolv.conf".
  fold copy. unfold set_files. cbn [files symlinks mtab script log].
  rewrite run_quiet.
  2: { cbn [feasible]. unfold exists_file. cbn [files]. rewrite Hf1.
       apply andb_true_intro. split; [by apply bool_decide_eq_true|].
       apply negb_true_iff, String.eqb_neq. done. }
  world_simpl. rewrite Hf1. world_simpl. cbv beta iota.
  unfold mret, M_ret. cbv beta iota.
  cbn [FileInstaller.source_base_dir FileInstaller.target_base_dir
       FileInstaller.files app].
  set (f2 := <[copy := text]> f1).
  rewrite mount_all_quiet by done.
  cbn [Chroot.chroot_dir Chroot.mounts_mgr Chroot.semaphore
       Chroot.resolv_conf Chroot.master MountsManager.base_dir
       MountsManager.__init__].
  assert (f2 !! "/etc/resolv.conf" = Some text) as Hf2.
  { subst f2. by rewrite lookup_insert_ne. }
  assert (f2 !! copy = Some text) as Hf2c.
  { subst f2. by rewrite lookup_insert_eq. }
  unfold FileTempInst.ensure_is_copied, FileTempInst.on_inst, zoom,
    FileInstaller.ensure_is_copied, get_self, mbind, M_bind,
    FileInstaller._make_source_path, FileInstaller._make_target_path.
  cbn [FileTempInst.inst FileTempInst.file_path
       FileInstaller.source_base_dir FileInstaller.target_base_dir].
  change (Path.lstrip_slash "/etc/resolv.conf") with "etc/resolv.conf".
  change (Path.join "/" "etc/resolv.conf") with "/etc/resolv.conf".
  fold copy.
  rewrite run_quiet
    by (cbn [feasible files]; rewrite Hf2, Hf2c; apply String.eqb_refl).
  world_simpl. cbv beta iota.
  rewrite ensure_all_mounted_quiet.
  2: { eapply Forall_impl; [exact Hhost|]. intros mp Hmp. cbv beta in Hmp.
       unfold mounted in Hmp. cbn [mtab] in Hmp.
       apply bool_decide_eq_true in Hmp. apply elem_of_app. by right. }
  cbv beta iota. cbn [Chroot.chroot_dir].
  eexists _, _, _. split; [reflexivity|].
  split; [reflexivity|]. split; [reflexivity|]. split; [reflexivity|].
  assert (FileSemaphore.read_counter (FileSemaphore.__init__ cnt) f2 = Ok 1)
    as Hone.
  { unfold FileSemaphore.read_counter.
    cbn [FileSemaphore.__init__ FileSemaphore.sem_file_path].
    subst f2 f1. by rewrite lookup_insert_ne, lookup_insert_eq. }
  unfold Chroot.__exit__, Chroot.clean_up, Chroot.semaphore_down,
    FileSemaphore.call, get_self, mbind, M_bind.
  cbn [Chroot.semaphore files]. rewrite (down_ok cnt f2 1 Hone).
  change (1 - 1) with 0. unfold updated. change (0 =? 0) with true.
  cbv beta iota.
  cbn [FileSemaphore.__init__ FileSemaphore.sem_file_path
       FileSemaphore.lock_file_path Chroot.master].
  change (cnt ++ ".lock") with lock.
  set (f3 := delete cnt (delete lock f2)).
  cbn [Chroot.wait_drained].
  unfold Chroot.semaphore_get, FileSemaphore.call, get_self, mbind, M_bind.
  cbn [Chroot.semaphore]. unfold set_files.
  cbn [files symlinks mtab script log]. rewrite get_eq.
  assert (FileSemaphore.read_counter (FileSemaphore.__init__ cnt) f3 = Ok 0)
    as Hnone.
  { unfold FileSemaphore.read_counter.
    cbn [FileSemaphore.__init__ FileSemaphore.sem_file_path].
    subst f3. by rewrite lookup_delete_eq. }
  rewrite Hnone. change (0 <? 0) with false. cbv beta iota.
  cbn [FileSemaphore.__init__ FileSemaphore.sem_file_path
       FileSemaphore.lock_file_path].
  change (cnt ++ ".lock") with lock.
  set (f4 := delete lock f3).
  unfold mret, M_ret, ExceptionEater.eat, Chroot.umount_all,
    Chroot.on_mounts_mgr, zoom, MountsManager.umount_all, get_self, mbind,
    M_bind.
  cbn [Chroot.mounts_mgr MountsManager.mounts].
  rewrite umount_loop_quiet. cbv beta iota.
  cbn [Chroot.chroot_dir Chroot.mounts_mgr Chroot.semaphore
       Chroot.resolv_conf Chroot.master].
  unfold Chroot.on_resolv_conf, zoom, FileTempInst.remove,
    FileTempInst.on_inst, zoom, FileInstaller.uninstall_all, get_self,
    mbind, M_bind.
  cbn [Chroot.chroot_dir Chroot.mounts_mgr Chroot.semaphore
       Chroot.resolv_conf Chroot.master FileTempInst.inst
       FileTempInst.file_path FileInstaller.files length
       FileInstaller.uninstall_loop].
  unfold get_self, modify, mbind, M_bind, FileInstaller._remove, get_self,
    mbind, M_bind, FileInstaller._make_target_path,
    FileInstaller.set_files.
  cbn [FileInstaller.files].
  change (MountsManager.pop ["/etc/resolv.conf"])
    with (Some ([] : list string, "/etc/resolv.conf")).
  cbv beta iota.
  cbn [FileInstaller.source_base_dir FileInstaller.target_base_dir
       FileInstaller.files].
  change (Path.lstrip_slash "/etc/resolv.conf") with "etc/resolv.conf".
  fold copy.
  assert (f4 !! copy = Some text) as Hf4.
  { subst f4 f3. by rewrite !lookup_delete_ne. }
  rewrite run_quiet
    by (cbn [feasible]; unfold exists_file; cbn [files]; rewrite Hf4;
        by apply bool_decide_eq_true).
  world_simpl. cbv beta iota.
  cbn [FileInstaller.uninstall_loop]. unfold mret, M_ret. cbv beta iota.
  unfold modify, Chroot.set_master, ExceptionEater.raise_first_if_any,
    mret, M_ret.
  cbn [Chroot.chroot_dir Chroot.mounts_mgr Chroot.semaphore
       Chroot.resolv_conf Chroot.master FileInstaller.source_base_dir
       FileInstaller.target_base_dir FileTempInst.file_path].
  split; [reflexivity|]. cbn [files mtab]. split; [|done].
  apply map_eq. intros k. subst f4 f3 f2 f1.
  destruct (decide (copy = k)) as [<-|];
    [by rewrite !lookup_delete_eq|].
  destruct (decide (lock = k)) as [<-|];
    [by rewrite !(lookup_delete_ne _ copy), !lookup_delete_eq|].
  destruct (decide (cnt = k)) as [<-|];
    repeat first [rewrite lookup_delete_eq
                 |rewrite lookup_delete_ne by done
                 |rewrite lookup_insert_ne by done]; done.
Qed.

Lemma lone_session_round_trip_witness :
  let self :=
    Chroot.__init__ (λ _, "2fd4e1c67a2d28fced849ee1bb76e7391b93eb12")
      "/work/gentoo" "/var/tmp/geni" in
  let w :=
    World {["/etc/resolv.conf" := "nameserver 10.0.0.1";
            "/work/gentoo/etc/resolv.conf" := "nameserver 192.168.0.1"]}
      ∅ ["/dev"; "/sys"; "/proc"; "/tmp"] [] [] in
  script w = []
  ∧ files w !! "/etc/resolv.conf" = Some "nameserver 10.0.0.1"
  ∧ islink "/dev/shm" w = false
  ∧ ∃ self1 w1 w2,
      Chroot.__enter__ 1 self w
      = (Ok (ChrootExec.Build "/work/gentoo"), self1, w1)
      ∧ Chroot.master self1 = true
      ∧ Chroot.__exit__ 1 self1 w1 = (Ok false, self, w2)
      ∧ files w2 !! "/work/gentoo/etc/resolv.conf" = None
      ∧ mtab w2 = ["/dev"; "/sys"; "/proc"; "/tmp"].
Proof.
  intros self w. split; [reflexivity|]. split; [vm_compute; reflexivity|].
  split; [vm_compute; reflexivity|].
  destruct (lone_session_round_trip
              (λ _, "2fd4e1c67a2d28fced849ee1bb76e7391b93eb12")
              "/work/gentoo" "/var/tmp/geni" "nameserver 10.0.0.1" w 1)
    as (self1 & w1 & w2 & H1 & H2 & _ & _ & H3 & H4 & H5);
    [reflexivity|vm_compute; reflexivity|vm_compute; reflexivity|done
    |vm_compute; reflexivity
    |repeat (constructor; [vm_compute; reflexivity|]); constructor|lia|].
  exists self1, w1, w2. split; [exact H1|]. split; [exact H2|].
  split; [exact H3|]. split; [|exact H5].
  rewrite H4. apply lookup_delete_eq.
Defined.
